(** * libadiotp: the client side of the ADI OTP pseudo trusted application

    A shallow embedding of [src/libadiotp.c].  The library is a thin client:
    every operation fills a [TEEC_Operation], hands it to the TEE client API
    and maps the answer back to an [int] status and to output parameters.

    The TEE client API and the C library ([calloc], [free], [stderr]) are the
    environment of the code.  They are modelled by an oracle ([Env]) that is
    threaded through a state monad together with the trace of the calls made
    and the lines written to [stderr]. *)

From Stdlib Require Import ZArith String Ascii DecimalString Lia.
From stdpp Require Import base list.

Local Open Scope Z_scope.

(** ** Machine integers *)

(** A [uint32_t] is a [Z] reduced modulo [2^32]. *)
Definition wrap32 (z : Z) : Z := z mod 2 ^ 32.

(** Conversion of a 32-bit pattern to [int] (two's complement), as done by
    the casts [(int) res] and by the stores of [uint32_t] values into
    [int] variables. *)
Definition to_int (z : Z) : Z := (z + 2 ^ 31) mod 2 ^ 32 - 2 ^ 31.

(** [%d] of [fprintf]. *)
Definition fmt_d (z : Z) : string := NilZero.string_of_int (Z.to_int (to_int z)).

Definition newline : string := String (ascii_of_nat 10) EmptyString.

(** ** Constants of the system headers *)

(** [errno.h] (Linux). *)
Definition EINVAL : Z := 22.

(** [tee_client_api.h] (GlobalPlatform TEE Client API). *)
Definition NULL : Z := 0.
Definition TEEC_SUCCESS : Z := 0.
Definition TEEC_LOGIN_PUBLIC : Z := 0.

Definition TEEC_NONE : Z := 0.
Definition TEEC_VALUE_INPUT : Z := 1.
Definition TEEC_VALUE_OUTPUT : Z := 2.
Definition TEEC_VALUE_INOUT : Z := 3.
Definition TEEC_MEMREF_TEMP_INPUT : Z := 5.
Definition TEEC_MEMREF_TEMP_OUTPUT : Z := 6.
Definition TEEC_MEMREF_TEMP_INOUT : Z := 7.

Definition TEEC_PARAM_TYPES (p0 p1 p2 p3 : Z) : Z :=
  Z.lor (Z.lor (Z.lor p0 (Z.shiftl p1 4)) (Z.shiftl p2 8)) (Z.shiftl p3 12).

(** [TEEC_PARAM_TYPE_GET] of the same header: the type of slot [i]. *)
Definition TEEC_PARAM_TYPE_GET (t : Z) (i : Z) : Z :=
  Z.land (Z.shiftr t (i * 4)) 15.

Record TEEC_UUID := {
  timeLow : Z;
  timeMid : Z;
  timeHiAndVersion : Z;
  clockSeqAndNode : list Z
}.

Record TEEC_Value := { a : Z; b : Z }.

(** [buffer] is an address; the bytes behind it belong to the caller and to
    the transport. *)
Record TEEC_TempMemoryReference := { buffer : Z; size : Z }.

(** [TEEC_Parameter] is a union; the code reads and writes every slot
    through one member only, so the two members used are kept side by
    side. *)
Record TEEC_Parameter := {
  value : TEEC_Value;
  tmpref : TEEC_TempMemoryReference
}.

Record TEEC_Operation := {
  started : Z;
  paramTypes : Z;
  params : list TEEC_Parameter
}.

Definition zero_param : TEEC_Parameter :=
  {| value := {| a := 0; b := 0 |}; tmpref := {| buffer := NULL; size := 0 |} |}.

#[global] Instance TEEC_Parameter_inhabited : Inhabited TEEC_Parameter :=
  populate zero_param.

(** [memset(&op, 0, sizeof(op))] *)
Definition memset_op : TEEC_Operation :=
  {| started := 0; paramTypes := 0; params := replicate 4 zero_param |}.

(** [op.paramTypes = t] *)
Definition set_paramTypes (t : Z) (op : TEEC_Operation) : TEEC_Operation :=
  {| started := started op; paramTypes := t; params := params op |}.

(** [op.params[i]] *)
Definition param (op : TEEC_Operation) (i : nat) : TEEC_Parameter :=
  params op !!! i.

Definition set_param (i : nat) (p : TEEC_Parameter) (op : TEEC_Operation)
  : TEEC_Operation :=
  {| started := started op; paramTypes := paramTypes op;
     params := <[i := p]> (params op) |}.

(** [op.params[i].value.a = v] *)
Definition set_value_a (i : nat) (v : Z) (op : TEEC_Operation) : TEEC_Operation :=
  let p := param op i in
  set_param i {| value := {| a := v; b := b (value p) |}; tmpref := tmpref p |} op.

(** [op.params[i].tmpref.buffer = buf] *)
Definition set_tmpref_buffer (i : nat) (buf : Z) (op : TEEC_Operation)
  : TEEC_Operation :=
  let p := param op i in
  set_param i {| value := value p;
                 tmpref := {| buffer := buf; size := size (tmpref p) |} |} op.

(** [op.params[i].tmpref.size = n] *)
Definition set_tmpref_size (i : nat) (n : Z) (op : TEEC_Operation)
  : TEEC_Operation :=
  let p := param op i in
  set_param i {| value := value p;
                 tmpref := {| buffer := buffer (tmpref p); size := n |} |} op.

(** The members [value.a] and [value.b] are [uint32_t]; whatever the
    transport hands back is read as such. *)
Definition norm_param (p : TEEC_Parameter) : TEEC_Parameter :=
  {| value := {| a := wrap32 (a (value p)); b := wrap32 (b (value p)) |};
     tmpref := tmpref p |}.

Definition norm_op (op : TEEC_Operation) : TEEC_Operation :=
  {| started := started op; paramTypes := paramTypes op;
     params := norm_param <$> params op |}.

(** ** The header [libadiotp.h]

    The header is not part of the source file.  Its constants are the
    parameters of the development. *)

(** The command macros used by [libadiotp.c]. *)
Inductive adi_otp_cmd :=
| ADI_OTP_CMD_VERSION
| ADI_OTP_CMD_READ
| ADI_OTP_CMD_WRITE
| ADI_OTP_CMD_INVALIDATE
| ADI_OTP_CMD_IS_VALID
| ADI_OTP_CMD_IS_WRITTEN
| ADI_OTP_CMD_LOCK.

#[global] Instance adi_otp_cmd_eq_dec : EqDecision adi_otp_cmd.
Proof. solve_decision. Defined.

Definition all_cmds : list adi_otp_cmd :=
  [ADI_OTP_CMD_VERSION; ADI_OTP_CMD_READ; ADI_OTP_CMD_WRITE;
   ADI_OTP_CMD_INVALIDATE; ADI_OTP_CMD_IS_VALID; ADI_OTP_CMD_IS_WRITTEN;
   ADI_OTP_CMD_LOCK].

(** Modelled from the spec: the numeric values of the command macros, of the
    version macros, of the application UUID and of [ADI_OTP_ID_lock] are
    defined in [libadiotp.h], which is missing.  The spec (sections 4.3 and
    6) says that every command has its own stable numeric identifier; that
    is [cmd_id_inj].  The version macros are [int] constants. *)
Class libadiotp_h := {
  PTA_ADI_OTP_UUID : TEEC_UUID;
  ADI_OTP_MAJOR : Z;
  ADI_OTP_MINOR : Z;
  ADI_OTP_ID_lock : Z;
  cmd_id : adi_otp_cmd -> Z;
  cmd_id_inj : forall c1 c2, cmd_id c1 = cmd_id c2 -> c1 = c2
}.

(** ** The environment: C library and TEE client API *)

(** The oracle answers every call from its own state [tee].  A context and
    a session are named by the address of the [struct adi_otp] that holds
    them ([&otp->ctx], [&otp->session]).  [env_calloc] answers
    [calloc(sizeof(struct adi_otp), 1)]: an address, or [NULL]. *)
Record Env := {
  tee : Type;
  env_calloc : tee -> Z * tee;
  env_free : Z -> tee -> tee;
  env_InitializeContext : Z -> tee -> Z * tee;
  env_OpenSession : Z -> TEEC_UUID -> Z -> tee -> Z * Z * tee;
  env_CloseSession : Z -> tee -> tee;
  env_FinalizeContext : Z -> tee -> tee;
  env_InvokeCommand : Z -> Z -> TEEC_Operation -> tee -> Z * TEEC_Operation * Z * tee
}.

(** What the environment sees of a run, in order. *)
Inductive Event :=
| EvCalloc (p : Z)
| EvFree (p : Z)
| EvInitializeContext (otp : Z) (res : Z)
| EvOpenSession (otp : Z) (uuid : TEEC_UUID) (login : Z) (res origin : Z)
| EvCloseSession (otp : Z)
| EvFinalizeContext (otp : Z)
| EvInvokeCommand (otp : Z) (cmd : Z) (op : TEEC_Operation)
                  (res : Z) (op' : TEEC_Operation) (origin : Z).

(** ** The client *)

Declare Scope otp_scope.
Delimit Scope otp_scope with otp.

Section Client.
Context {hdr : libadiotp_h} (E : Env).

(** The state a run threads: the oracle's state, the calls made so far
    (oldest first) and the lines written to [stderr]. *)
Record World := {
  tee_state : tee E;
  trace : list Event;
  stderr : list string
}.

Definition M (A : Type) : Type := World -> A * World.

Definition mret {A} (x : A) : M A := fun w => (x, w).

Definition bind {A B} (m : M A) (k : A -> M B) : M B :=
  fun w => let (x, w') := m w in k x w'.

Notation "'let*' x ':=' c1 'in' c2" := (bind c1 (fun x => c2))
  (at level 10, x pattern, c1 at level 100, c2 at level 200) : otp_scope.
Notation "c1 ;; c2" := (bind c1 (fun _ => c2))
  (at level 100, right associativity) : otp_scope.

Local Open Scope otp_scope.

Definition log_event (e : Event) (t : tee E) (w : World) : World :=
  {| tee_state := t; trace := trace w ++ [e]; stderr := stderr w |}.

(** [fprintf(stderr, ...)] with the formatted line [s]. *)
Definition fprintf_stderr (s : string) : M unit :=
  fun w => (tt, {| tee_state := tee_state w; trace := trace w;
                   stderr := stderr w ++ [s] |}).

(** [calloc] of one [struct adi_otp] *)
Definition calloc : M Z :=
  fun w => let '(p, t) := env_calloc E (tee_state w) in
           (p, log_event (EvCalloc p) t w).

Definition free (p : Z) : M unit :=
  fun w => (tt, log_event (EvFree p) (env_free E p (tee_state w)) w).

(** [TEEC_InitializeContext(NULL, &otp->ctx)]; a [TEEC_Result] is a
    [uint32_t]. *)
Definition TEEC_InitializeContext (otp : Z) : M Z :=
  fun w => let '(res, t) := env_InitializeContext E otp (tee_state w) in
           (wrap32 res, log_event (EvInitializeContext otp (wrap32 res)) t w).

(** [TEEC_OpenSession(&otp->ctx, &otp->session, &uuid, login, NULL, NULL,
    &origin)]: the result and the origin. *)
Definition TEEC_OpenSession (otp : Z) (uuid : TEEC_UUID) (login : Z) : M (Z * Z) :=
  fun w => let '(res, origin, t) := env_OpenSession E otp uuid login (tee_state w) in
           ((wrap32 res, wrap32 origin),
            log_event (EvOpenSession otp uuid login (wrap32 res) (wrap32 origin)) t w).

Definition TEEC_CloseSession (otp : Z) : M unit :=
  fun w => (tt, log_event (EvCloseSession otp)
                          (env_CloseSession E otp (tee_state w)) w).

Definition TEEC_FinalizeContext (otp : Z) : M unit :=
  fun w => (tt, log_event (EvFinalizeContext otp)
                          (env_FinalizeContext E otp (tee_state w)) w).

(** What the transport answers to a command in world [w]: the result, the
    operation as it comes back, and the origin. *)
Definition invoke_answer (otp : Z) (cmd : Z) (op : TEEC_Operation) (w : World)
  : Z * TEEC_Operation * Z :=
  let '(res, op', origin, _) := env_InvokeCommand E otp cmd op (tee_state w) in
  (wrap32 res, norm_op op', wrap32 origin).

(** [TEEC_InvokeCommand(&otp->session, cmd, &op, &origin)] *)
Definition TEEC_InvokeCommand (otp : Z) (cmd : Z) (op : TEEC_Operation)
  : M (Z * TEEC_Operation * Z) :=
  fun w => let '(res, op', origin, t) := env_InvokeCommand E otp cmd op (tee_state w) in
           ((wrap32 res, norm_op op', wrap32 origin),
            log_event (EvInvokeCommand otp cmd op (wrap32 res) (norm_op op')
                                       (wrap32 origin)) t w).

Definition line (l : list string) : string := String.concat EmptyString l.

(** An output parameter [int *x] or [uint32_t *x] is passed as the value the
    variable holds before the call and returned as the value it holds after
    it, next to the status. *)

Definition adi_otp_get_version (otp : Z) (major minor : Z) : M (Z * Z * Z) :=
  let op := memset_op in
  let op := set_paramTypes
              (TEEC_PARAM_TYPES TEEC_VALUE_OUTPUT TEEC_NONE TEEC_NONE TEEC_NONE) op in
  let* (res, op, origin) := TEEC_InvokeCommand otp (cmd_id ADI_OTP_CMD_VERSION) op in
  if negb (TEEC_SUCCESS =? res) then
    fprintf_stderr (line ["OTP read failed, ret = "%string; fmt_d res; newline]) ;;
    mret (to_int res, major, minor)
  else
    let major := to_int (a (value (param op 0))) in
    let minor := to_int (b (value (param op 0))) in
    mret (TEEC_SUCCESS, major, minor).

(** The locals [major] and [minor] are not initialised in C; they are read
    only after [adi_otp_get_version] has stored into them. *)
Definition adi_otp_check_version (otp : Z) : M Z :=
  let major := 0 in
  let minor := 0 in
  let* (ret, major, minor) := adi_otp_get_version otp major minor in
  if negb (ret =? 0) then mret ret
  else if negb (major =? ADI_OTP_MAJOR) then
    fprintf_stderr
      (line ["OTP major version mismatch: pTA version = "%string; fmt_d major;
             ", library version = "%string; fmt_d ADI_OTP_MAJOR; newline]) ;;
    mret (- EINVAL)
  else if minor <? ADI_OTP_MINOR then
    fprintf_stderr
      (line ["OTP minor version too old: pTA version = "%string; fmt_d minor;
             ", library version = "%string; fmt_d ADI_OTP_MINOR; newline]) ;;
    mret (- EINVAL)
  else mret 0.

(** The labels [finalize] and [cleanup] of [adi_otp_open]. *)
Definition open_cleanup (ret : Z) : M Z :=
  free ret ;;
  mret NULL.

Definition open_finalize (ret : Z) : M Z :=
  TEEC_FinalizeContext ret ;;
  open_cleanup ret.

Definition adi_otp_open : M Z :=
  let uuid := PTA_ADI_OTP_UUID in
  let* ret := calloc in
  if ret =? NULL then mret NULL
  else
    let* res := TEEC_InitializeContext ret in
    if negb (TEEC_SUCCESS =? res) then open_cleanup ret
    else
      let* (res, origin) := TEEC_OpenSession ret uuid TEEC_LOGIN_PUBLIC in
      if negb (TEEC_SUCCESS =? res) then open_finalize ret
      else
        let* res := adi_otp_check_version ret in
        let res := wrap32 res in
        if negb (res =? 0) then open_finalize ret
        else mret ret.

Definition adi_otp_close (otp : Z) : M unit :=
  if otp =? NULL then mret tt
  else
    TEEC_CloseSession otp ;;
    TEEC_FinalizeContext otp.

Definition adi_otp_read (otp : Z) (id : Z) (buf : Z) (len : Z) : M (Z * Z) :=
  let op := memset_op in
  let op := set_paramTypes
              (TEEC_PARAM_TYPES TEEC_VALUE_INPUT TEEC_MEMREF_TEMP_OUTPUT
                                TEEC_NONE TEEC_NONE) op in
  let op := set_value_a 0 id op in
  let op := set_tmpref_buffer 1 buf op in
  let op := set_tmpref_size 1 len op in
  let* (res, op, origin) := TEEC_InvokeCommand otp (cmd_id ADI_OTP_CMD_READ) op in
  if negb (TEEC_SUCCESS =? res) then
    fprintf_stderr (line ["OTP read failed, ret = "%string; fmt_d res; newline]) ;;
    mret (to_int res, len)
  else
    let len := wrap32 (size (tmpref (param op 1))) in
    mret (0, len).

Definition adi_otp_write (otp : Z) (id : Z) (buf : Z) (len : Z) : M Z :=
  let op := memset_op in
  let op := set_paramTypes
              (TEEC_PARAM_TYPES TEEC_VALUE_INPUT TEEC_MEMREF_TEMP_INPUT
                                TEEC_NONE TEEC_NONE) op in
  let op := set_value_a 0 id op in
  let op := set_tmpref_buffer 1 buf op in
  let op := set_tmpref_size 1 len op in
  let* (res, op, origin) := TEEC_InvokeCommand otp (cmd_id ADI_OTP_CMD_WRITE) op in
  if negb (TEEC_SUCCESS =? res) then
    fprintf_stderr (line ["OTP write failed, ret = "%string; fmt_d res; newline]) ;;
    mret (to_int res)
  else mret 0.

Definition adi_otp_invalidate (otp : Z) (id : Z) : M Z :=
  let op := memset_op in
  let op := set_paramTypes
              (TEEC_PARAM_TYPES TEEC_VALUE_INPUT TEEC_NONE TEEC_NONE TEEC_NONE) op in
  let op := set_value_a 0 id op in
  let* (res, op, origin) := TEEC_InvokeCommand otp (cmd_id ADI_OTP_CMD_INVALIDATE) op in
  if negb (TEEC_SUCCESS =? res) then
    fprintf_stderr
      (line ["OTP invalidate failed, ret = "%string; fmt_d res; newline]) ;;
    mret (to_int res)
  else mret 0.

Definition adi_otp_is_valid (otp : Z) (id : Z) (valid : Z) : M (Z * Z) :=
  let op := memset_op in
  let op := set_paramTypes
              (TEEC_PARAM_TYPES TEEC_VALUE_INPUT TEEC_VALUE_OUTPUT
                                TEEC_NONE TEEC_NONE) op in
  let op := set_value_a 0 id op in
  let* (res, op, origin) := TEEC_InvokeCommand otp (cmd_id ADI_OTP_CMD_IS_VALID) op in
  if negb (TEEC_SUCCESS =? res) then
    fprintf_stderr
      (line ["OTP is_valid failed, ret = "%string; fmt_d res; newline]) ;;
    mret (to_int res, valid)
  else
    let valid := a (value (param op 1)) in
    mret (0, valid).

Definition adi_otp_is_written (otp : Z) (id : Z) (written : Z) : M (Z * Z) :=
  let op := memset_op in
  let op := set_paramTypes
              (TEEC_PARAM_TYPES TEEC_VALUE_INPUT TEEC_VALUE_OUTPUT
                                TEEC_NONE TEEC_NONE) op in
  let op := set_value_a 0 id op in
  let* (res, op, origin) := TEEC_InvokeCommand otp (cmd_id ADI_OTP_CMD_IS_WRITTEN) op in
  if negb (TEEC_SUCCESS =? res) then
    fprintf_stderr
      (line ["OTP is_written failed, ret = "%string; fmt_d res; newline]) ;;
    mret (to_int res, written)
  else
    let written := a (value (param op 1)) in
    mret (0, written).

Definition adi_otp_is_locked (otp : Z) (locked : Z) : M (Z * Z) :=
  adi_otp_is_written otp ADI_OTP_ID_lock locked.

Definition adi_otp_lock (otp : Z) : M Z :=
  let op := memset_op in
  let op := set_paramTypes
              (TEEC_PARAM_TYPES TEEC_NONE TEEC_NONE TEEC_NONE TEEC_NONE) op in
  let* (res, op, origin) := TEEC_InvokeCommand otp (cmd_id ADI_OTP_CMD_LOCK) op in
  if negb (TEEC_SUCCESS =? res) then
    fprintf_stderr (line ["OTP lock failed, ret = "%string; fmt_d res; newline]) ;;
    mret (to_int res)
  else mret 0.

End Client.

Arguments tee_state {E} _.
Arguments trace {E} _.
Arguments stderr {E} _.

(** ** A scripted environment

    An environment whose answers are fixed by a script; the script is the
    oracle's state, so one [Env] serves every concrete run below. *)

Record script := {
  calloc_ans : Z;
  init_ans : Z;
  open_ans : Z * Z;
  invoke_ans : Z -> TEEC_Operation -> Z * TEEC_Operation * Z
}.

Definition scripted : Env := {|
  tee := script;
  env_calloc := fun t => (calloc_ans t, t);
  env_free := fun _ t => t;
  env_InitializeContext := fun _ t => (init_ans t, t);
  env_OpenSession := fun _ _ _ t => (open_ans t, t);
  env_CloseSession := fun _ t => t;
  env_FinalizeContext := fun _ t => t;
  env_InvokeCommand := fun _ cmd op t => (invoke_ans t cmd op, t)
|}.

Definition start (t : script) : World scripted :=
  Build_World scripted t [] [].

(** A sample header: version 1.0, commands numbered in the order of
    [all_cmds]. *)
Definition sample_cmd_id (c : adi_otp_cmd) : Z :=
  match c with
  | ADI_OTP_CMD_VERSION => 0
  | ADI_OTP_CMD_READ => 1
  | ADI_OTP_CMD_WRITE => 2
  | ADI_OTP_CMD_INVALIDATE => 3
  | ADI_OTP_CMD_IS_VALID => 4
  | ADI_OTP_CMD_IS_WRITTEN => 5
  | ADI_OTP_CMD_LOCK => 6
  end.

Definition sample_h : libadiotp_h.
Proof.
  refine {| PTA_ADI_OTP_UUID :=
              {| timeLow := 0; timeMid := 0; timeHiAndVersion := 0;
                 clockSeqAndNode := replicate 8 0 |};
            ADI_OTP_MAJOR := 1;
            ADI_OTP_MINOR := 0;
            ADI_OTP_ID_lock := 0;
            cmd_id := sample_cmd_id |}.
  intros c1 c2; destruct c1, c2; simpl; intros H;
    first [reflexivity | discriminate H].
Defined.

(** Answers of a scripted peer. *)

(** Every command fails with [res], blamed on [origin]. *)
Definition answer_fail (res origin : Z) (cmd : Z) (op : TEEC_Operation)
  : Z * TEEC_Operation * Z := (res, op, origin).

(** Every command succeeds; slot [i] comes back with the value pair
    [(va, vb)] and the size [n]. *)
Definition answer_ok (i : nat) (va vb n : Z) (cmd : Z) (op : TEEC_Operation)
  : Z * TEEC_Operation * Z :=
  (TEEC_SUCCESS,
   set_param i {| value := {| a := va; b := vb |};
                  tmpref := {| buffer := buffer (tmpref (param op i)); size := n |} |} op,
   0).

(** A peer that is reached ([calloc], context and session succeed, the
    handle is at address 4096) and answers commands with [ans]. *)
Definition peer (ans : Z -> TEEC_Operation -> Z * TEEC_Operation * Z) : script :=
  {| calloc_ans := 4096; init_ans := TEEC_SUCCESS; open_ans := (TEEC_SUCCESS, 0);
     invoke_ans := ans |}.

(** ** Requests and answers *)

(** A slot used through [value], and a slot used through [tmpref]. *)
Definition value_param (va vb : Z) : TEEC_Parameter :=
  {| value := {| a := va; b := vb |}; tmpref := {| buffer := NULL; size := 0 |} |}.

Definition tmpref_param (buf n : Z) : TEEC_Parameter :=
  {| value := {| a := 0; b := 0 |}; tmpref := {| buffer := buf; size := n |} |}.

(** An operation with parameter types [t] whose first two slots are [p0]
    and [p1]; the other two are zero. *)
Definition request (t : Z) (p0 p1 : TEEC_Parameter) : TEEC_Operation :=
  {| started := 0; paramTypes := t; params := [p0; p1; zero_param; zero_param] |}.

Definition req_version : TEEC_Operation :=
  request (TEEC_PARAM_TYPES TEEC_VALUE_OUTPUT TEEC_NONE TEEC_NONE TEEC_NONE)
          zero_param zero_param.

Definition req_read (id buf len : Z) : TEEC_Operation :=
  request (TEEC_PARAM_TYPES TEEC_VALUE_INPUT TEEC_MEMREF_TEMP_OUTPUT TEEC_NONE TEEC_NONE)
          (value_param id 0) (tmpref_param buf len).

Definition req_write (id buf len : Z) : TEEC_Operation :=
  request (TEEC_PARAM_TYPES TEEC_VALUE_INPUT TEEC_MEMREF_TEMP_INPUT TEEC_NONE TEEC_NONE)
          (value_param id 0) (tmpref_param buf len).

Definition req_invalidate (id : Z) : TEEC_Operation :=
  request (TEEC_PARAM_TYPES TEEC_VALUE_INPUT TEEC_NONE TEEC_NONE TEEC_NONE)
          (value_param id 0) zero_param.

(** [IS_VALID] and [IS_WRITTEN] have the same shape. *)
Definition req_query (id : Z) : TEEC_Operation :=
  request (TEEC_PARAM_TYPES TEEC_VALUE_INPUT TEEC_VALUE_OUTPUT TEEC_NONE TEEC_NONE)
          (value_param id 0) zero_param.

Definition req_lock : TEEC_Operation :=
  request (TEEC_PARAM_TYPES TEEC_NONE TEEC_NONE TEEC_NONE TEEC_NONE)
          zero_param zero_param.

(** The line an operation prints when its command fails. *)
Definition diag (what : string) (res : Z) : string :=
  String.concat EmptyString [what; fmt_d res; newline].

Section Exchange.
Context {hdr : libadiotp_h} (E : Env).
Implicit Types (w : World E) (c : adi_otp_cmd) (op : TEEC_Operation).

(** The transport's answer to command [c] with request [op] in world [w]:
    status, operation handed back, origin; and the world after the call. *)
Definition status (otp : Z) c op w : Z :=
  (invoke_answer E otp (cmd_id c) op w).1.1.

Definition reply (otp : Z) c op w : TEEC_Operation :=
  (invoke_answer E otp (cmd_id c) op w).1.2.

Definition origin_tag (otp : Z) c op w : Z :=
  (invoke_answer E otp (cmd_id c) op w).2.

Definition invoked (otp : Z) c op w : World E :=
  (TEEC_InvokeCommand E otp (cmd_id c) op w).2.

(** The world after one more line on [stderr]. *)
Definition complain (s : string) w : World E :=
  {| tee_state := tee_state w; trace := trace w; stderr := stderr w ++ [s] |}.

(** The run from [w] to [w'] made exactly one call of the transport:
    command [c] with request [op], on the session of [otp]. *)
Definition one_call w (w' : World E) (otp : Z) (c : adi_otp_cmd)
  (op : TEEC_Operation) : Prop :=
  trace w' = trace w ++
    [EvInvokeCommand otp (cmd_id c) op (status otp c op w)
                     (reply otp c op w) (origin_tag otp c op w)].

(** The [int] handed to the caller is the transport's status: the same 32
    bits, read as [int]. *)
Definition verbatim (ret st : Z) : Prop :=
  ret = to_int st /\ wrap32 ret = st.

End Exchange.

(** The four parameter types packed in [paramTypes]. *)
Definition shape (op : TEEC_Operation) : list Z :=
  TEEC_PARAM_TYPE_GET (paramTypes op) <$> [0; 1; 2; 3].

(** The command identifier of a call of [TEEC_InvokeCommand]. *)
Definition invoked_cmd (e : Event) : option Z :=
  match e with
  | EvInvokeCommand _ cmd _ _ _ _ => Some cmd
  | _ => None
  end.

(** The function of the environment behind an event. *)
Inductive call :=
| Calloc
| Free
| InitializeContext
| OpenSession
| CloseSession
| FinalizeContext
| InvokeCommand.

#[global] Instance call_eq_dec : EqDecision call.
Proof. solve_decision. Defined.

Definition call_of (e : Event) : call :=
  match e with
  | EvCalloc _ => Calloc
  | EvFree _ => Free
  | EvInitializeContext _ _ => InitializeContext
  | EvOpenSession _ _ _ _ _ => OpenSession
  | EvCloseSession _ => CloseSession
  | EvFinalizeContext _ => FinalizeContext
  | EvInvokeCommand _ _ _ _ _ _ => InvokeCommand
  end.

(** ** Sample worlds

    The client talks to the scripted environment through the handle at
    address 4096, and to field 5 with a buffer at address 8192. *)

(** The peer reports version 1.0, the version of the sample header. *)
Definition w_v1 : World scripted := start (peer (answer_ok 0 1 0 0)).

(** The peer reports version 2.0. *)
Definition w_v2 : World scripted := start (peer (answer_ok 0 2 0 0)).

(** Every command fails with [0xFFFF0000]; the origin is 3 (the trusted
    OS) or 4 (the trusted application). *)
Definition w_reject_os : World scripted := start (peer (answer_fail 4294901760 3)).
Definition w_reject_ta : World scripted := start (peer (answer_fail 4294901760 4)).

(** Reads succeed and hand back size 4, or size 11. *)
Definition w_size4 : World scripted := start (peer (answer_ok 1 0 0 4)).
Definition w_size11 : World scripted := start (peer (answer_ok 1 0 0 11)).

(** A read of field 5 into a buffer of capacity 10. *)
Definition sample_read (w : World scripted) : Z * Z * World scripted :=
  adi_otp_read (hdr := sample_h) scripted 4096 5 8192 10 w.

(** The seven operations in turn. *)
Definition sample_tour (w0 : World scripted) : World scripted :=
  let w1 := (adi_otp_get_version (hdr := sample_h) scripted 4096 0 0 w0).2 in
  let w2 := (adi_otp_read (hdr := sample_h) scripted 4096 5 8192 10 w1).2 in
  let w3 := (adi_otp_write (hdr := sample_h) scripted 4096 5 8192 4 w2).2 in
  let w4 := (adi_otp_invalidate (hdr := sample_h) scripted 4096 5 w3).2 in
  let w5 := (adi_otp_is_valid (hdr := sample_h) scripted 4096 5 0 w4).2 in
  let w6 := (adi_otp_is_written (hdr := sample_h) scripted 4096 5 0 w5).2 in
  (adi_otp_lock (hdr := sample_h) scripted 4096 w6).2.

(** ** Events of [adi_otp_open] *)

(** The handle an event is about: the address passed to the call, or
    returned by [calloc]. *)
Definition event_handle (e : Event) : Z :=
  match e with
  | EvCalloc p => p
  | EvFree p => p
  | EvInitializeContext otp _ => otp
  | EvOpenSession otp _ _ _ _ => otp
  | EvCloseSession otp => otp
  | EvFinalizeContext otp => otp
  | EvInvokeCommand otp _ _ _ _ _ => otp
  end.

Section OpenEvents.
Context {hdr : libadiotp_h}.

(** What [adi_otp_open] may pass to the environment: a session is opened
    on the application [PTA_ADI_OTP_UUID] with a public login, and the only
    command sent is VERSION with its request. *)
Definition open_event_ok (e : Event) : Prop :=
  match e with
  | EvOpenSession _ uuid login _ _ =>
      uuid = PTA_ADI_OTP_UUID /\ login = TEEC_LOGIN_PUBLIC
  | EvInvokeCommand _ cmd op _ _ _ =>
      cmd = cmd_id ADI_OTP_CMD_VERSION /\ op = req_version
  | EvCloseSession _ => False
  | _ => True
  end.

End OpenEvents.

(** The peer reports major 1 and minor [2^31]. *)
Definition w_minor_2_31 : World scripted := start (peer (answer_ok 0 1 2147483648 0)).

(** * Properties *)

(** ** Machine integers *)

Lemma wrap32_range z : 0 <= wrap32 z < 2 ^ 32.
Proof. unfold wrap32. apply Z.mod_pos_bound. reflexivity. Qed.

Lemma to_int_range z : - 2 ^ 31 <= to_int z < 2 ^ 31.
Proof.
  unfold to_int.
  assert (0 <= (z + 2 ^ 31) mod 2 ^ 32 < 2 ^ 32) by (apply Z.mod_pos_bound; reflexivity).
  change (2 ^ 32) with (2 * 2 ^ 31) in *. lia.
Qed.

Lemma wrap32_to_int z : 0 <= z < 2 ^ 32 -> wrap32 (to_int z) = z.
Proof.
  intros Hz. unfold wrap32, to_int.
  rewrite Zminus_mod_idemp_l.
  replace (z + 2 ^ 31 - 2 ^ 31) with z by lia.
  apply Z.mod_small. exact Hz.
Qed.

Lemma to_int_0_iff z : 0 <= z < 2 ^ 32 -> to_int z = 0 <-> z = 0.
Proof.
  intros Hz. split.
  - intros H0. rewrite <- (wrap32_to_int z Hz), H0. reflexivity.
  - intros ->. reflexivity.
Qed.

Lemma to_int_small z : 0 <= z < 2 ^ 31 -> to_int z = z.
Proof.
  intros Hz. unfold to_int. rewrite Z.mod_small.
  - lia.
  - change (2 ^ 32) with (2 * 2 ^ 31). lia.
Qed.

(** ** One call of the transport *)

Section Runs.
Context {hdr : libadiotp_h} (E : Env).
Implicit Types (w : World E) (c : adi_otp_cmd) (op : TEEC_Operation).

Lemma TEEC_InvokeCommand_run otp c op w :
  TEEC_InvokeCommand E otp (cmd_id c) op w =
  ((status E otp c op w, reply E otp c op w, origin_tag E otp c op w),
   invoked E otp c op w).
Proof.
  unfold status, reply, origin_tag, invoked, invoke_answer, TEEC_InvokeCommand.
  destruct (env_InvokeCommand E otp (cmd_id c) op (tee_state w))
    as [[[res op'] origin] t].
  reflexivity.
Qed.

Lemma trace_invoked otp c op w :
  trace (invoked E otp c op w) =
  trace w ++ [EvInvokeCommand otp (cmd_id c) op (status E otp c op w)
                              (reply E otp c op w) (origin_tag E otp c op w)].
Proof.
  unfold status, reply, origin_tag, invoked, invoke_answer, TEEC_InvokeCommand.
  destruct (env_InvokeCommand E otp (cmd_id c) op (tee_state w))
    as [[[res op'] origin] t].
  reflexivity.
Qed.

Lemma stderr_invoked otp c op w :
  stderr (invoked E otp c op w) = stderr w.
Proof.
  unfold invoked, TEEC_InvokeCommand.
  destruct (env_InvokeCommand E otp (cmd_id c) op (tee_state w))
    as [[[res op'] origin] t].
  reflexivity.
Qed.

Lemma status_range otp c op w : 0 <= status E otp c op w < 2 ^ 32.
Proof.
  unfold status, invoke_answer.
  destruct (env_InvokeCommand E otp (cmd_id c) op (tee_state w))
    as [[[res op'] origin] t].
  apply wrap32_range.
Qed.

Lemma to_int_status_0 otp c op w :
  to_int (status E otp c op w) = 0 <-> status E otp c op w = 0.
Proof. apply to_int_0_iff, status_range. Qed.

(** The members [value.a] and [value.b] of the operation handed back are
    32-bit values. *)
Lemma reply_value_range otp c op w i :
  0 <= a (value (param (reply E otp c op w) i)) < 2 ^ 32 /\
  0 <= b (value (param (reply E otp c op w) i)) < 2 ^ 32.
Proof.
  unfold reply, invoke_answer.
  destruct (env_InvokeCommand E otp (cmd_id c) op (tee_state w))
    as [[[res op'] origin] t].
  cbn [fst snd]. unfold param, norm_op; cbn [params].
  rewrite list_lookup_total_alt, list_lookup_fmap.
  destruct (params op' !! i) as [p|]; cbn.
  - split; apply wrap32_range.
  - split; split; reflexivity || lia.
Qed.

(** ** What each operation does, in terms of the transport's answer *)

Ltac run_invoke :=
  unfold bind; rewrite TEEC_InvokeCommand_run;
  rewrite (Z.eqb_sym TEEC_SUCCESS); unfold TEEC_SUCCESS;
  match goal with |- context [?s =? 0] => destruct (s =? 0) end;
  reflexivity.

Lemma adi_otp_get_version_run otp major minor w :
  adi_otp_get_version E otp major minor w =
  let st := status E otp ADI_OTP_CMD_VERSION req_version w in
  let op' := reply E otp ADI_OTP_CMD_VERSION req_version w in
  let w' := invoked E otp ADI_OTP_CMD_VERSION req_version w in
  if st =? 0
  then ((0, to_int (a (value (param op' 0))), to_int (b (value (param op' 0)))), w')
  else ((to_int st, major, minor), complain E (diag "OTP read failed, ret = " st) w').
Proof.
  unfold adi_otp_get_version.
  change (set_paramTypes _ memset_op) with req_version.
  cbv zeta. run_invoke.
Qed.

Lemma adi_otp_read_run otp id buf len w :
  adi_otp_read E otp id buf len w =
  let st := status E otp ADI_OTP_CMD_READ (req_read id buf len) w in
  let op' := reply E otp ADI_OTP_CMD_READ (req_read id buf len) w in
  let w' := invoked E otp ADI_OTP_CMD_READ (req_read id buf len) w in
  if st =? 0
  then ((0, wrap32 (size (tmpref (param op' 1)))), w')
  else ((to_int st, len), complain E (diag "OTP read failed, ret = " st) w').
Proof.
  unfold adi_otp_read.
  change (set_tmpref_size 1 len _) with (req_read id buf len).
  cbv zeta. run_invoke.
Qed.

Lemma adi_otp_write_run otp id buf len w :
  adi_otp_write E otp id buf len w =
  let st := status E otp ADI_OTP_CMD_WRITE (req_write id buf len) w in
  let w' := invoked E otp ADI_OTP_CMD_WRITE (req_write id buf len) w in
  if st =? 0 then (0, w')
  else (to_int st, complain E (diag "OTP write failed, ret = " st) w').
Proof.
  unfold adi_otp_write.
  change (set_tmpref_size 1 len _) with (req_write id buf len).
  cbv zeta. run_invoke.
Qed.

Lemma adi_otp_invalidate_run otp id w :
  adi_otp_invalidate E otp id w =
  let st := status E otp ADI_OTP_CMD_INVALIDATE (req_invalidate id) w in
  let w' := invoked E otp ADI_OTP_CMD_INVALIDATE (req_invalidate id) w in
  if st =? 0 then (0, w')
  else (to_int st, complain E (diag "OTP invalidate failed, ret = " st) w').
Proof.
  unfold adi_otp_invalidate.
  change (set_value_a 0 id _) with (req_invalidate id).
  cbv zeta. run_invoke.
Qed.

Lemma adi_otp_is_valid_run otp id valid w :
  adi_otp_is_valid E otp id valid w =
  let st := status E otp ADI_OTP_CMD_IS_VALID (req_query id) w in
  let op' := reply E otp ADI_OTP_CMD_IS_VALID (req_query id) w in
  let w' := invoked E otp ADI_OTP_CMD_IS_VALID (req_query id) w in
  if st =? 0 then ((0, a (value (param op' 1))), w')
  else ((to_int st, valid), complain E (diag "OTP is_valid failed, ret = " st) w').
Proof.
  unfold adi_otp_is_valid.
  change (set_value_a 0 id _) with (req_query id).
  cbv zeta. run_invoke.
Qed.

Lemma adi_otp_is_written_run otp id written w :
  adi_otp_is_written E otp id written w =
  let st := status E otp ADI_OTP_CMD_IS_WRITTEN (req_query id) w in
  let op' := reply E otp ADI_OTP_CMD_IS_WRITTEN (req_query id) w in
  let w' := invoked E otp ADI_OTP_CMD_IS_WRITTEN (req_query id) w in
  if st =? 0 then ((0, a (value (param op' 1))), w')
  else ((to_int st, written),
        complain E (diag "OTP is_written failed, ret = " st) w').
Proof.
  unfold adi_otp_is_written.
  change (set_value_a 0 id _) with (req_query id).
  cbv zeta. run_invoke.
Qed.

Lemma adi_otp_lock_run otp w :
  adi_otp_lock E otp w =
  let st := status E otp ADI_OTP_CMD_LOCK req_lock w in
  let w' := invoked E otp ADI_OTP_CMD_LOCK req_lock w in
  if st =? 0 then (0, w')
  else (to_int st, complain E (diag "OTP lock failed, ret = " st) w').
Proof.
  unfold adi_otp_lock.
  change (set_paramTypes _ memset_op) with req_lock.
  cbv zeta. run_invoke.
Qed.

End Runs.

(** ** Proof steps *)

(** Rewrite every operation into its reading of the transport's answer. *)
Ltac by_run :=
  unfold adi_otp_is_locked;
  rewrite ?adi_otp_get_version_run, ?adi_otp_read_run,
    ?adi_otp_write_run, ?adi_otp_invalidate_run, ?adi_otp_is_valid_run,
    ?adi_otp_is_written_run, ?adi_otp_lock_run;
  cbv zeta.

(** Case analysis on the status test of the goal. *)
Ltac on_status :=
  cbv zeta;
  match goal with
  | |- context [status ?E ?otp ?c ?op ?w =? 0] =>
      let H := fresh "Hst" in
      destruct (Z.eqb_spec (status E otp c op w) 0) as [H|H];
      cbn [fst snd]
  end.

(** ** The version gate *)

Section VersionGate.
Context {hdr : libadiotp_h} (E : Env).
Implicit Types (w : World E).

Lemma adi_otp_check_version_run otp w :
  adi_otp_check_version E otp w =
  let st := status E otp ADI_OTP_CMD_VERSION req_version w in
  let op' := reply E otp ADI_OTP_CMD_VERSION req_version w in
  let w' := invoked E otp ADI_OTP_CMD_VERSION req_version w in
  let major := to_int (a (value (param op' 0))) in
  let minor := to_int (b (value (param op' 0))) in
  if st =? 0 then
    if major =? ADI_OTP_MAJOR then
      if minor <? ADI_OTP_MINOR then
        (- EINVAL,
         complain E
           (line ["OTP minor version too old: pTA version = "%string; fmt_d minor;
                  ", library version = "%string; fmt_d ADI_OTP_MINOR; newline]) w')
      else (0, w')
    else
      (- EINVAL,
       complain E
         (line ["OTP major version mismatch: pTA version = "%string; fmt_d major;
                ", library version = "%string; fmt_d ADI_OTP_MAJOR; newline]) w')
  else (to_int st, complain E (diag "OTP read failed, ret = " st) w').
Proof.
  unfold adi_otp_check_version, bind.
  rewrite adi_otp_get_version_run. cbv zeta.
  destruct (status E otp ADI_OTP_CMD_VERSION req_version w =? 0) eqn:Hst.
  - cbn [negb Z.eqb]. 
    destruct (_ =? ADI_OTP_MAJOR); cbn [negb]; [|reflexivity].
    destruct (_ <? ADI_OTP_MINOR); reflexivity.
  - apply Z.eqb_neq in Hst.
    destruct (to_int _ =? 0) eqn:H0; [|reflexivity].
    apply Z.eqb_eq, to_int_status_0 in H0. contradiction.
Qed.

(** C1.  When the peer answers the VERSION command, reporting [major] and
    [minor] (read as [int]), the version gate returns [-EINVAL] exactly
    when [major] differs from [ADI_OTP_MAJOR], or the majors are equal and
    [minor] is less than [ADI_OTP_MINOR]; it returns 0 exactly when the
    majors are equal and [minor] is at least [ADI_OTP_MINOR]. *)
Theorem check_version_gate otp w :
  status E otp ADI_OTP_CMD_VERSION req_version w = TEEC_SUCCESS ->
  let op' := reply E otp ADI_OTP_CMD_VERSION req_version w in
  let major := to_int (a (value (param op' 0))) in
  let minor := to_int (b (value (param op' 0))) in
  let r := (adi_otp_check_version E otp w).1 in
  (r = - EINVAL <->
     major <> ADI_OTP_MAJOR \/ (major = ADI_OTP_MAJOR /\ minor < ADI_OTP_MINOR)) /\
  (r = 0 <-> major = ADI_OTP_MAJOR /\ ADI_OTP_MINOR <= minor).
Proof.
  intros Hst. cbv zeta. rewrite adi_otp_check_version_run. cbv zeta.
  rewrite Hst. cbn [Z.eqb TEEC_SUCCESS].
  destruct (Z.eqb_spec
              (to_int (a (value (param (reply E otp ADI_OTP_CMD_VERSION req_version w) 0))))
              ADI_OTP_MAJOR) as [Hmaj|Hmaj].
  - destruct (Z.ltb_spec
                (to_int (b (value (param (reply E otp ADI_OTP_CMD_VERSION req_version w) 0))))
                ADI_OTP_MINOR) as [Hmin|Hmin];
      cbn [fst]; unfold EINVAL; split; split; intros; try lia; tauto.
  - cbn [fst]; unfold EINVAL; split; split; intros; try lia; tauto.
Qed.

End VersionGate.

(** The sample peer reports version 1.0 to a client built for 1.0. *)
Lemma check_version_gate_witness :
  status (hdr := sample_h) scripted 4096 ADI_OTP_CMD_VERSION req_version w_v1
    = TEEC_SUCCESS /\
  (adi_otp_check_version (hdr := sample_h) scripted 4096 w_v1).1 = 0.
Proof.
  split; [reflexivity|].
  apply (check_version_gate (hdr := sample_h) scripted 4096 w_v1).
  - reflexivity.
  - split; [reflexivity | vm_compute; discriminate].
Defined.

(** ** Closing a session *)

Section Close.
Context {hdr : libadiotp_h} (E : Env).
Implicit Types (w : World E).

(** C6.  [adi_otp_close] on [NULL] changes nothing: no call, no output.
    On a live handle it calls [TEEC_CloseSession] and then
    [TEEC_FinalizeContext] on that handle, and nothing else.  Its result is
    of type [unit] in both cases: there is no status. *)
Theorem adi_otp_close_spec otp w :
  adi_otp_close E NULL w = (tt, w) /\
  (otp <> NULL ->
   adi_otp_close E otp w =
   (tt, {| tee_state := env_FinalizeContext E otp (env_CloseSession E otp (tee_state w));
           trace := trace w ++ [EvCloseSession otp; EvFinalizeContext otp];
           stderr := stderr w |})).
Proof.
  split; [reflexivity|].
  intros Hotp. unfold adi_otp_close.
  destruct (Z.eqb_spec otp NULL) as [->|_]; [contradiction|].
  unfold bind, TEEC_CloseSession, TEEC_FinalizeContext, log_event. cbn.
  rewrite <- app_assoc. reflexivity.
Qed.

End Close.

Lemma adi_otp_close_spec_witness :
  4096 <> NULL /\
  trace (adi_otp_close scripted 4096 w_v1).2 =
  [EvCloseSession 4096; EvFinalizeContext 4096].
Proof.
  split; [discriminate|].
  rewrite (proj2 (adi_otp_close_spec scripted 4096 w_v1));
    [reflexivity | discriminate].
Defined.

(** ** The lock query *)

Section Lock.
Context {hdr : libadiotp_h} (E : Env).
Implicit Types (w : World E).

(** C5.  [adi_otp_is_locked] is [adi_otp_is_written] on the reserved
    identifier [ADI_OTP_ID_lock]: same status, same value left in the
    output variable, same world afterwards.  In full: it sends the
    IS_WRITTEN command with [ADI_OTP_ID_lock] in [params[0].value.a]; when
    the transport fails, it returns the status and leaves [locked] as it
    was; otherwise it returns 0 and stores [params[1].value.a]. *)
Theorem adi_otp_is_locked_is_written otp locked w :
  adi_otp_is_locked E otp locked w =
    adi_otp_is_written E otp ADI_OTP_ID_lock locked w /\
  adi_otp_is_locked E otp locked w =
    (let req := req_query ADI_OTP_ID_lock in
     let st := status E otp ADI_OTP_CMD_IS_WRITTEN req w in
     let op' := reply E otp ADI_OTP_CMD_IS_WRITTEN req w in
     let w' := invoked E otp ADI_OTP_CMD_IS_WRITTEN req w in
     if st =? 0 then ((0, a (value (param op' 1))), w')
     else ((to_int st, locked),
           complain E (diag "OTP is_written failed, ret = " st) w')) /\
  a (value (param (req_query ADI_OTP_ID_lock) 0)) = ADI_OTP_ID_lock.
Proof.
  split; [reflexivity|]. split; [|reflexivity].
  unfold adi_otp_is_locked. apply adi_otp_is_written_run.
Qed.

End Lock.

(** ** Status values *)

Section Status.
Context {hdr : libadiotp_h} (E : Env).
Implicit Types (w : World E).

(** The status returned by the version check. *)
Lemma check_version_status otp w :
  let st := status E otp ADI_OTP_CMD_VERSION req_version w in
  let op' := reply E otp ADI_OTP_CMD_VERSION req_version w in
  let major := to_int (a (value (param op' 0))) in
  let minor := to_int (b (value (param op' 0))) in
  (adi_otp_check_version E otp w).1 =
  if st =? 0 then
    if (major =? ADI_OTP_MAJOR) && negb (minor <? ADI_OTP_MINOR) then 0 else - EINVAL
  else to_int st.
Proof.
  rewrite adi_otp_check_version_run. cbv zeta.
  destruct (_ =? 0); [|reflexivity].
  destruct (_ =? ADI_OTP_MAJOR); [|reflexivity].
  destruct (_ <? ADI_OTP_MINOR); reflexivity.
Qed.

Lemma check_version_zero_iff otp w :
  (adi_otp_check_version E otp w).1 = 0 <->
  status E otp ADI_OTP_CMD_VERSION req_version w = 0 /\
  to_int (a (value (param (reply E otp ADI_OTP_CMD_VERSION req_version w) 0)))
    = ADI_OTP_MAJOR /\
  ADI_OTP_MINOR
    <= to_int (b (value (param (reply E otp ADI_OTP_CMD_VERSION req_version w) 0))).
Proof.
  rewrite check_version_status. cbv zeta.
  destruct (Z.eqb_spec (status E otp ADI_OTP_CMD_VERSION req_version w) 0) as [Hst|Hst].
  - destruct (Z.eqb_spec
                (to_int (a (value (param (reply E otp ADI_OTP_CMD_VERSION req_version w) 0))))
                ADI_OTP_MAJOR) as [Hmaj|Hmaj];
    destruct (Z.ltb_spec
                (to_int (b (value (param (reply E otp ADI_OTP_CMD_VERSION req_version w) 0))))
                ADI_OTP_MINOR) as [Hmin|Hmin];
      cbn [andb negb]; unfold EINVAL; split; intros; try lia; tauto.
  - rewrite to_int_status_0. tauto.
Qed.

(** C10.  Every operation that returns a status returns 0 exactly when the
    transport reported success for its command (and, for the version
    check, the reported version is accepted); in every other case the
    value returned is not 0.  The status is the first component of the
    result. *)
Theorem status_zero_iff_success otp id buf len major minor valid written locked w :
  ((adi_otp_get_version E otp major minor w).1.1.1 = 0 <->
     status E otp ADI_OTP_CMD_VERSION req_version w = TEEC_SUCCESS) /\
  ((adi_otp_check_version E otp w).1 = 0 <->
     status E otp ADI_OTP_CMD_VERSION req_version w = TEEC_SUCCESS /\
     to_int (a (value (param (reply E otp ADI_OTP_CMD_VERSION req_version w) 0)))
       = ADI_OTP_MAJOR /\
     ADI_OTP_MINOR
       <= to_int (b (value (param (reply E otp ADI_OTP_CMD_VERSION req_version w) 0)))) /\
  ((adi_otp_read E otp id buf len w).1.1 = 0 <->
     status E otp ADI_OTP_CMD_READ (req_read id buf len) w = TEEC_SUCCESS) /\
  ((adi_otp_write E otp id buf len w).1 = 0 <->
     status E otp ADI_OTP_CMD_WRITE (req_write id buf len) w = TEEC_SUCCESS) /\
  ((adi_otp_invalidate E otp id w).1 = 0 <->
     status E otp ADI_OTP_CMD_INVALIDATE (req_invalidate id) w = TEEC_SUCCESS) /\
  ((adi_otp_is_valid E otp id valid w).1.1 = 0 <->
     status E otp ADI_OTP_CMD_IS_VALID (req_query id) w = TEEC_SUCCESS) /\
  ((adi_otp_is_written E otp id written w).1.1 = 0 <->
     status E otp ADI_OTP_CMD_IS_WRITTEN (req_query id) w = TEEC_SUCCESS) /\
  ((adi_otp_is_locked E otp locked w).1.1 = 0 <->
     status E otp ADI_OTP_CMD_IS_WRITTEN (req_query ADI_OTP_ID_lock) w = TEEC_SUCCESS) /\
  ((adi_otp_lock E otp w).1 = 0 <->
     status E otp ADI_OTP_CMD_LOCK req_lock w = TEEC_SUCCESS).
Proof.
  unfold adi_otp_is_locked, TEEC_SUCCESS.
  split; [|split; [apply check_version_zero_iff|]].
  all: rewrite ?adi_otp_get_version_run, ?adi_otp_read_run,
         ?adi_otp_write_run, ?adi_otp_invalidate_run, ?adi_otp_is_valid_run,
         ?adi_otp_is_written_run, ?adi_otp_lock_run.
  all: repeat split;
         on_status; first [ now rewrite Hst | now apply to_int_status_0 ].
Qed.

End Status.

(** ** Output parameters and pass-through of the status *)

Section PassThrough.
Context {hdr : libadiotp_h} (E : Env).
Implicit Types (w : World E).

Lemma verbatim_status otp c op w :
  verbatim (to_int (status E otp c op w)) (status E otp c op w).
Proof. split; [reflexivity | apply wrap32_to_int, status_range]. Qed.

Lemma verbatim_zero otp c op w :
  status E otp c op w = 0 -> verbatim 0 (status E otp c op w).
Proof. intros ->. split; reflexivity. Qed.

(** C9.  When the transport reports a failure (equivalently: when the call
    returns a status other than 0), the output variables hold what they
    held before the call: [major] and [minor] of [adi_otp_get_version],
    [len] of [adi_otp_read], [valid] of [adi_otp_is_valid], [written] of
    [adi_otp_is_written] and [locked] of [adi_otp_is_locked]. *)
Theorem outputs_kept_on_failure otp id buf len major minor valid written locked w :
  (let r := adi_otp_get_version E otp major minor w in
   status E otp ADI_OTP_CMD_VERSION req_version w <> TEEC_SUCCESS \/ r.1.1.1 <> 0 ->
   r.1.1.2 = major /\ r.1.2 = minor) /\
  (let r := adi_otp_read E otp id buf len w in
   status E otp ADI_OTP_CMD_READ (req_read id buf len) w <> TEEC_SUCCESS \/ r.1.1 <> 0 ->
   r.1.2 = len) /\
  (let r := adi_otp_is_valid E otp id valid w in
   status E otp ADI_OTP_CMD_IS_VALID (req_query id) w <> TEEC_SUCCESS \/ r.1.1 <> 0 ->
   r.1.2 = valid) /\
  (let r := adi_otp_is_written E otp id written w in
   status E otp ADI_OTP_CMD_IS_WRITTEN (req_query id) w <> TEEC_SUCCESS \/ r.1.1 <> 0 ->
   r.1.2 = written) /\
  (let r := adi_otp_is_locked E otp locked w in
   status E otp ADI_OTP_CMD_IS_WRITTEN (req_query ADI_OTP_ID_lock) w <> TEEC_SUCCESS
   \/ r.1.1 <> 0 ->
   r.1.2 = locked).
Proof.
  unfold TEEC_SUCCESS. by_run.
  repeat match goal with |- _ /\ _ => split end.
  all: on_status; intros [Hne|Hne]; first [congruence | split; reflexivity].
Qed.

(** C3.  [adi_otp_get_version], [adi_otp_read], [adi_otp_write],
    [adi_otp_invalidate], [adi_otp_is_valid], [adi_otp_is_written],
    [adi_otp_is_locked] and [adi_otp_lock] call the transport exactly once
    and return its status, the same 32 bits read as [int]: nothing is
    retried and no status is made up.  The version check does the same,
    except that it returns [-EINVAL] for a version it rejects: the only
    status that no transport call produced. *)
Theorem status_passed_through otp id buf len major minor valid written locked w :
  (let r := adi_otp_get_version E otp major minor w in
   verbatim r.1.1.1 (status E otp ADI_OTP_CMD_VERSION req_version w) /\
   one_call E w r.2 otp ADI_OTP_CMD_VERSION req_version) /\
  (let r := adi_otp_read E otp id buf len w in
   verbatim r.1.1 (status E otp ADI_OTP_CMD_READ (req_read id buf len) w) /\
   one_call E w r.2 otp ADI_OTP_CMD_READ (req_read id buf len)) /\
  (let r := adi_otp_write E otp id buf len w in
   verbatim r.1 (status E otp ADI_OTP_CMD_WRITE (req_write id buf len) w) /\
   one_call E w r.2 otp ADI_OTP_CMD_WRITE (req_write id buf len)) /\
  (let r := adi_otp_invalidate E otp id w in
   verbatim r.1 (status E otp ADI_OTP_CMD_INVALIDATE (req_invalidate id) w) /\
   one_call E w r.2 otp ADI_OTP_CMD_INVALIDATE (req_invalidate id)) /\
  (let r := adi_otp_is_valid E otp id valid w in
   verbatim r.1.1 (status E otp ADI_OTP_CMD_IS_VALID (req_query id) w) /\
   one_call E w r.2 otp ADI_OTP_CMD_IS_VALID (req_query id)) /\
  (let r := adi_otp_is_written E otp id written w in
   verbatim r.1.1 (status E otp ADI_OTP_CMD_IS_WRITTEN (req_query id) w) /\
   one_call E w r.2 otp ADI_OTP_CMD_IS_WRITTEN (req_query id)) /\
  (let r := adi_otp_is_locked E otp locked w in
   verbatim r.1.1 (status E otp ADI_OTP_CMD_IS_WRITTEN (req_query ADI_OTP_ID_lock) w) /\
   one_call E w r.2 otp ADI_OTP_CMD_IS_WRITTEN (req_query ADI_OTP_ID_lock)) /\
  (let r := adi_otp_lock E otp w in
   verbatim r.1 (status E otp ADI_OTP_CMD_LOCK req_lock w) /\
   one_call E w r.2 otp ADI_OTP_CMD_LOCK req_lock) /\
  (let r := adi_otp_check_version E otp w in
   let st := status E otp ADI_OTP_CMD_VERSION req_version w in
   (verbatim r.1 st \/ (st = TEEC_SUCCESS /\ r.1 = - EINVAL)) /\
   one_call E w r.2 otp ADI_OTP_CMD_VERSION req_version).
Proof.
  unfold one_call, TEEC_SUCCESS. rewrite adi_otp_check_version_run. by_run.
  repeat match goal with |- _ /\ _ => split end.
  all: on_status.
  all: try apply verbatim_status; try (apply verbatim_zero; assumption).
  all: try apply trace_invoked.
  - destruct (_ =? ADI_OTP_MAJOR); [destruct (_ <? ADI_OTP_MINOR)|]; cbn [fst].
    + right. split; [assumption | reflexivity].
    + left. apply verbatim_zero; assumption.
    + right. split; [assumption | reflexivity].
  - left. apply verbatim_status.
  - destruct (_ =? ADI_OTP_MAJOR); [destruct (_ <? ADI_OTP_MINOR)|]; cbn [snd];
      apply trace_invoked.
Qed.

End PassThrough.

(** The sample peer rejects every command. *)
Lemma outputs_kept_on_failure_witness :
  (adi_otp_get_version (hdr := sample_h) scripted 4096 7 9 w_reject_ta).1.1.1 <> 0 /\
  (adi_otp_get_version (hdr := sample_h) scripted 4096 7 9 w_reject_ta).1.1.2 = 7 /\
  (adi_otp_get_version (hdr := sample_h) scripted 4096 7 9 w_reject_ta).1.2 = 9 /\
  (adi_otp_read (hdr := sample_h) scripted 4096 5 8192 10 w_reject_ta).1.2 = 10 /\
  (adi_otp_is_valid (hdr := sample_h) scripted 4096 5 1 w_reject_ta).1.2 = 1 /\
  (adi_otp_is_written (hdr := sample_h) scripted 4096 5 1 w_reject_ta).1.2 = 1 /\
  (adi_otp_is_locked (hdr := sample_h) scripted 4096 1 w_reject_ta).1.2 = 1.
Proof.
  destruct (outputs_kept_on_failure (hdr := sample_h) scripted
              4096 5 8192 10 7 9 1 1 1 w_reject_ta) as (Hv & Hr & Hval & Hwr & Hl).
  assert (Hfail : (adi_otp_get_version (hdr := sample_h) scripted
                     4096 7 9 w_reject_ta).1.1.1 <> 0)
    by (vm_compute; discriminate).
  split; [exact Hfail|].
  split; [apply Hv; right; exact Hfail|].
  split; [apply Hv; right; exact Hfail|].
  split; [apply Hr; right; vm_compute; discriminate|].
  split; [apply Hval; right; vm_compute; discriminate|].
  split; [apply Hwr; right; vm_compute; discriminate|].
  apply Hl; right; vm_compute; discriminate.
Defined.

(** ** Diagnostics *)

Section Diagnostics.
Context {hdr : libadiotp_h} (E : Env).
Implicit Types (w : World E).

(** C7, as the code has it.  When the transport reports a status [st] other
    than success, the operation prints one line, made of a fixed text, the
    status in decimal and a newline, and returns the status.  The origin
    reported with the status appears neither in the line nor in the value
    returned. *)
Theorem failure_prints_status_only otp id buf len major minor valid written locked w :
  (let st := status E otp ADI_OTP_CMD_VERSION req_version w in
   let r := adi_otp_get_version E otp major minor w in
   st <> TEEC_SUCCESS ->
   stderr r.2 = stderr w ++ [diag "OTP read failed, ret = " st] /\
   r.1 = (to_int st, major, minor)) /\
  (let st := status E otp ADI_OTP_CMD_READ (req_read id buf len) w in
   let r := adi_otp_read E otp id buf len w in
   st <> TEEC_SUCCESS ->
   stderr r.2 = stderr w ++ [diag "OTP read failed, ret = " st] /\
   r.1 = (to_int st, len)) /\
  (let st := status E otp ADI_OTP_CMD_WRITE (req_write id buf len) w in
   let r := adi_otp_write E otp id buf len w in
   st <> TEEC_SUCCESS ->
   stderr r.2 = stderr w ++ [diag "OTP write failed, ret = " st] /\
   r.1 = to_int st) /\
  (let st := status E otp ADI_OTP_CMD_INVALIDATE (req_invalidate id) w in
   let r := adi_otp_invalidate E otp id w in
   st <> TEEC_SUCCESS ->
   stderr r.2 = stderr w ++ [diag "OTP invalidate failed, ret = " st] /\
   r.1 = to_int st) /\
  (let st := status E otp ADI_OTP_CMD_IS_VALID (req_query id) w in
   let r := adi_otp_is_valid E otp id valid w in
   st <> TEEC_SUCCESS ->
   stderr r.2 = stderr w ++ [diag "OTP is_valid failed, ret = " st] /\
   r.1 = (to_int st, valid)) /\
  (let st := status E otp ADI_OTP_CMD_IS_WRITTEN (req_query id) w in
   let r := adi_otp_is_written E otp id written w in
   st <> TEEC_SUCCESS ->
   stderr r.2 = stderr w ++ [diag "OTP is_written failed, ret = " st] /\
   r.1 = (to_int st, written)) /\
  (let st := status E otp ADI_OTP_CMD_IS_WRITTEN (req_query ADI_OTP_ID_lock) w in
   let r := adi_otp_is_locked E otp locked w in
   st <> TEEC_SUCCESS ->
   stderr r.2 = stderr w ++ [diag "OTP is_written failed, ret = " st] /\
   r.1 = (to_int st, locked)) /\
  (let st := status E otp ADI_OTP_CMD_LOCK req_lock w in
   let r := adi_otp_lock E otp w in
   st <> TEEC_SUCCESS ->
   stderr r.2 = stderr w ++ [diag "OTP lock failed, ret = " st] /\
   r.1 = to_int st).
Proof.
  unfold TEEC_SUCCESS. by_run.
  repeat match goal with |- _ /\ _ => split end.
  all: on_status; intros Hne; [contradiction|].
  all: split; [|reflexivity].
  all: unfold complain; cbn [stderr]; rewrite stderr_invoked; reflexivity.
Qed.

End Diagnostics.

Lemma failure_prints_status_only_witness :
  status (hdr := sample_h) scripted 4096 ADI_OTP_CMD_WRITE (req_write 5 8192 4)
         w_reject_ta <> TEEC_SUCCESS /\
  stderr (adi_otp_write (hdr := sample_h) scripted 4096 5 8192 4 w_reject_ta).2 =
    [String.append "OTP write failed, ret = -65536" newline] /\
  (adi_otp_write (hdr := sample_h) scripted 4096 5 8192 4 w_reject_ta).1 = -65536.
Proof.
  assert (Hfail : status (hdr := sample_h) scripted 4096 ADI_OTP_CMD_WRITE
                         (req_write 5 8192 4) w_reject_ta <> TEEC_SUCCESS)
    by (vm_compute; discriminate).
  split; [exact Hfail|].
  destruct (failure_prints_status_only (hdr := sample_h) scripted
              4096 5 8192 4 0 0 0 0 0 w_reject_ta) as (_ & _ & Hw & _).
  destruct (Hw Hfail) as [Herr Hret].
  split; [rewrite Herr; reflexivity | rewrite Hret; reflexivity].
Defined.

(** C7, as stated, fails.  Two failing reads that differ only in the
    origin reported by the transport (3, the trusted OS, and 4, the
    trusted application) print the same line and return the same value:
    the origin is not in the diagnostics. *)
Lemma origin_not_in_diagnostics :
  origin_tag (hdr := sample_h) scripted 4096 ADI_OTP_CMD_READ (req_read 5 8192 10)
             w_reject_os = 3 /\
  origin_tag (hdr := sample_h) scripted 4096 ADI_OTP_CMD_READ (req_read 5 8192 10)
             w_reject_ta = 4 /\
  stderr (sample_read w_reject_os).2 =
    [String.append "OTP read failed, ret = -65536" newline] /\
  stderr (sample_read w_reject_ta).2 = stderr (sample_read w_reject_os).2 /\
  (sample_read w_reject_ta).1 = (sample_read w_reject_os).1 /\
  ~ (exists decode : list string -> Z,
       decode (stderr (sample_read w_reject_os).2) = 3 /\
       decode (stderr (sample_read w_reject_ta).2) = 4).
Proof.
  repeat match goal with |- _ /\ _ => split end; try reflexivity.
  intros (decode & H3 & H4).
  change (stderr (sample_read w_reject_ta).2)
    with (stderr (sample_read w_reject_os).2) in H4.
  congruence.
Qed.

(** ** The wire contract *)

Lemma all_cmds_NoDup : NoDup all_cmds.
Proof. apply (bool_decide_unpack (NoDup all_cmds)). vm_compute. exact I. Qed.

Lemma all_cmds_complete (c : adi_otp_cmd) : c ∈ all_cmds.
Proof.
  destruct c; unfold all_cmds; repeat constructor.
Qed.

Section Wire.
Context {hdr : libadiotp_h} (E : Env).
Implicit Types (w : World E).

Lemma cmd_ids_NoDup : NoDup (cmd_id <$> all_cmds).
Proof.
  apply NoDup_fmap_2_strong; [|apply all_cmds_NoDup].
  intros c1 c2 _ _. apply cmd_id_inj.
Qed.

(** C8, with the number of commands the code has.  There are seven
    commands, each with its own numeric identifier, and each operation
    makes one call with the request of its command.  VERSION: no input,
    slot 0 is a value output, read back as (major, minor).  READ: the
    field identifier as a value in slot 0, slot 1 an output buffer with the
    caller's capacity.  WRITE: the field identifier as a value, slot 1 an
    input buffer of the length supplied.  INVALIDATE: the field identifier
    only.  IS_VALID and IS_WRITTEN: the field identifier as a value, slot 1
    a value output whose member [a] is the flag.  LOCK: no parameter. *)
Theorem seven_command_shapes otp id buf len major minor valid written w :
  (NoDup all_cmds /\ (forall c, c ∈ all_cmds) /\ length all_cmds = 7%nat /\
   NoDup (cmd_id <$> all_cmds)) /\
  (let r := adi_otp_get_version E otp major minor w in
   let st := status E otp ADI_OTP_CMD_VERSION req_version w in
   let op' := reply E otp ADI_OTP_CMD_VERSION req_version w in
   one_call E w r.2 otp ADI_OTP_CMD_VERSION req_version /\
   shape req_version = [TEEC_VALUE_OUTPUT; TEEC_NONE; TEEC_NONE; TEEC_NONE] /\
   params req_version = [zero_param; zero_param; zero_param; zero_param] /\
   r.1 = if st =? 0
         then (0, to_int (a (value (param op' 0))), to_int (b (value (param op' 0))))
         else (to_int st, major, minor)) /\
  (let r := adi_otp_read E otp id buf len w in
   one_call E w r.2 otp ADI_OTP_CMD_READ (req_read id buf len) /\
   shape (req_read id buf len)
     = [TEEC_VALUE_INPUT; TEEC_MEMREF_TEMP_OUTPUT; TEEC_NONE; TEEC_NONE] /\
   params (req_read id buf len)
     = [value_param id 0; tmpref_param buf len; zero_param; zero_param]) /\
  (let r := adi_otp_write E otp id buf len w in
   one_call E w r.2 otp ADI_OTP_CMD_WRITE (req_write id buf len) /\
   shape (req_write id buf len)
     = [TEEC_VALUE_INPUT; TEEC_MEMREF_TEMP_INPUT; TEEC_NONE; TEEC_NONE] /\
   params (req_write id buf len)
     = [value_param id 0; tmpref_param buf len; zero_param; zero_param]) /\
  (let r := adi_otp_invalidate E otp id w in
   one_call E w r.2 otp ADI_OTP_CMD_INVALIDATE (req_invalidate id) /\
   shape (req_invalidate id) = [TEEC_VALUE_INPUT; TEEC_NONE; TEEC_NONE; TEEC_NONE] /\
   params (req_invalidate id)
     = [value_param id 0; zero_param; zero_param; zero_param]) /\
  (let r := adi_otp_is_valid E otp id valid w in
   let st := status E otp ADI_OTP_CMD_IS_VALID (req_query id) w in
   let op' := reply E otp ADI_OTP_CMD_IS_VALID (req_query id) w in
   one_call E w r.2 otp ADI_OTP_CMD_IS_VALID (req_query id) /\
   r.1 = if st =? 0 then (0, a (value (param op' 1))) else (to_int st, valid)) /\
  (let r := adi_otp_is_written E otp id written w in
   let st := status E otp ADI_OTP_CMD_IS_WRITTEN (req_query id) w in
   let op' := reply E otp ADI_OTP_CMD_IS_WRITTEN (req_query id) w in
   one_call E w r.2 otp ADI_OTP_CMD_IS_WRITTEN (req_query id) /\
   r.1 = if st =? 0 then (0, a (value (param op' 1))) else (to_int st, written)) /\
  (shape (req_query id) = [TEEC_VALUE_INPUT; TEEC_VALUE_OUTPUT; TEEC_NONE; TEEC_NONE] /\
   params (req_query id) = [value_param id 0; zero_param; zero_param; zero_param]) /\
  (let r := adi_otp_lock E otp w in
   one_call E w r.2 otp ADI_OTP_CMD_LOCK req_lock /\
   shape req_lock = [TEEC_NONE; TEEC_NONE; TEEC_NONE; TEEC_NONE] /\
   params req_lock = [zero_param; zero_param; zero_param; zero_param]).
Proof.
  split.
  { split; [apply all_cmds_NoDup|]. split; [apply all_cmds_complete|].
    split; [reflexivity | apply cmd_ids_NoDup]. }
  by_run.
  repeat match goal with |- _ /\ _ => split end; try reflexivity.
  all: try (destruct (_ =? 0); reflexivity).
  all: unfold one_call; destruct (_ =? 0); cbn [snd complain trace];
       apply trace_invoked.
Qed.

End Wire.

(** C8, as stated, fails on the number of commands: no duplicate-free
    list of all the commands has six entries.  On the sample peer and with
    the sample numbering, the seven operations in turn send seven
    identifiers, no two of them equal. *)
Lemma commands_are_not_six :
  ~ (exists l : list adi_otp_cmd,
       NoDup l /\ (forall c, c ∈ l) /\ length l = 6%nat) /\
  omap invoked_cmd (trace (sample_tour w_v1)) = [0; 1; 2; 3; 4; 5; 6].
Proof.
  split; [|reflexivity].
  intros (l & Hnd & Hall & Hlen).
  assert (Hsub : all_cmds ⊆+ l).
  { apply NoDup_submseteq; [apply all_cmds_NoDup | intros c _; apply Hall]. }
  apply submseteq_length in Hsub. rewrite Hlen in Hsub. cbn in Hsub. lia.
Qed.

(** ** Reading a field *)

Section Read.
Context {hdr : libadiotp_h} (E : Env).
Implicit Types (w : World E).

(** C4, as the code has it.  [adi_otp_read] makes one READ call whose
    request carries the field identifier in [params[0].value.a] and the
    caller's capacity in [params[1].tmpref.size].  On success the caller's
    length variable receives the size found in [params[1].tmpref.size] of
    the operation handed back, reduced modulo [2^32].  The code does not
    compare that size with the capacity: for a size below [2^32] the
    length stored is that size, so it is within the capacity exactly when
    the size handed back is. *)
Theorem read_stores_reported_length otp id buf len w :
  let req := req_read id buf len in
  let r := adi_otp_read E otp id buf len w in
  let n := size (tmpref (param (reply E otp ADI_OTP_CMD_READ req w) 1)) in
  one_call E w r.2 otp ADI_OTP_CMD_READ req /\
  a (value (param req 0)) = id /\
  buffer (tmpref (param req 1)) = buf /\
  size (tmpref (param req 1)) = len /\
  (r.1.1 = 0 -> r.1.2 = wrap32 n) /\
  (r.1.1 = 0 -> 0 <= n <= len -> len < 2 ^ 32 -> r.1.2 = n /\ r.1.2 <= len) /\
  (r.1.1 = 0 -> 0 <= n < 2 ^ 32 -> r.1.2 = n /\ (r.1.2 <= len <-> n <= len)).
Proof.
  cbv zeta. rewrite adi_otp_read_run. cbv zeta.
  destruct (Z.eqb_spec (status E otp ADI_OTP_CMD_READ (req_read id buf len) w) 0)
    as [Hst|Hst]; cbn [fst snd].
  - split; [apply trace_invoked|].
    do 3 (split; [reflexivity|]).
    split; [reflexivity|]. split.
    + intros _ Hn Hlen. unfold wrap32. rewrite Z.mod_small by lia. lia.
    + intros _ Hn. unfold wrap32. rewrite Z.mod_small by lia.
      split; [reflexivity | tauto].
  - split; [unfold one_call; cbn [complain trace]; apply trace_invoked|].
    do 3 (split; [reflexivity|]).
    split; [|split]; intros H0; apply to_int_status_0 in H0; contradiction.
Qed.

End Read.

(** The sample peer hands back four bytes; the caller offers ten. *)
Lemma read_stores_reported_length_witness :
  (sample_read w_size4).1.1 = 0 /\
  (sample_read w_size4).1.2 = 4 /\
  (sample_read w_size4).1.2 <= 10.
Proof.
  assert (H0 : (sample_read w_size4).1.1 = 0) by reflexivity.
  split; [exact H0|].
  destruct (read_stores_reported_length (hdr := sample_h) scripted
              4096 5 8192 10 w_size4) as (_ & _ & _ & _ & _ & Hle & _).
  apply Hle; [exact H0 | vm_compute; split; discriminate | reflexivity].
Defined.

(** C4, as stated, fails.  A transport that hands back size 11 for a
    buffer of capacity 10 and reports success makes [adi_otp_read] return 0
    and store 11 in the length variable. *)
Lemma read_length_may_exceed_capacity :
  (sample_read w_size11).1 = (0, 11) /\ ~ ((sample_read w_size11).1.2 <= 10).
Proof. split; [reflexivity | vm_compute; intros H; apply H; reflexivity]. Qed.

(** ** Opening a session *)

Section Open.
Context {hdr : libadiotp_h} (E : Env).
Implicit Types (w : World E).

Lemma check_version_calls otp w :
  exists e, trace (adi_otp_check_version E otp w).2 = trace w ++ [e] /\
            call_of e = InvokeCommand.
Proof.
  eexists. split; [|shelve].
  rewrite adi_otp_check_version_run. cbv zeta.
  destruct (_ =? 0); [destruct (_ =? ADI_OTP_MAJOR); [destruct (_ <? ADI_OTP_MINOR)|]|];
    cbn [snd complain trace]; apply trace_invoked.
  Unshelve. reflexivity.
Qed.

(** The calls [adi_otp_open] makes, path by path.  A handle is returned on
    one path only; the four others return [NULL].  [TEEC_CloseSession] is
    on none of them. *)
Lemma adi_otp_open_calls w :
  let r := adi_otp_open E w in
  exists l, trace r.2 = trace w ++ l /\
    if r.1 =? NULL then
      call_of <$> l ∈
        [ [Calloc];
          [Calloc; InitializeContext; Free];
          [Calloc; InitializeContext; OpenSession; FinalizeContext; Free];
          [Calloc; InitializeContext; OpenSession; InvokeCommand;
           FinalizeContext; Free] ]
    else call_of <$> l = [Calloc; InitializeContext; OpenSession; InvokeCommand].
Proof.
  cbv zeta. unfold adi_otp_open, bind, calloc.
  destruct (env_calloc E (tee_state w)) as [p t1].
  destruct (Z.eqb_spec p NULL) as [Hp|Hp].
  { exists [EvCalloc p]. cbn. split; [reflexivity|]. repeat constructor. }
  unfold TEEC_InitializeContext. cbn [tee_state log_event].
  destruct (env_InitializeContext E p t1) as [res t2].
  destruct (TEEC_SUCCESS =? wrap32 res); cbn [negb].
  2:{ exists [EvCalloc p; EvInitializeContext p (wrap32 res); EvFree p]. cbn.
      rewrite <- !app_assoc. split; [reflexivity|]. repeat constructor. }
  unfold TEEC_OpenSession. cbn [tee_state log_event].
  destruct (env_OpenSession E p PTA_ADI_OTP_UUID TEEC_LOGIN_PUBLIC t2)
    as [[res' origin] t3].
  destruct (TEEC_SUCCESS =? wrap32 res'); cbn [negb].
  2:{ exists [EvCalloc p; EvInitializeContext p (wrap32 res);
              EvOpenSession p PTA_ADI_OTP_UUID TEEC_LOGIN_PUBLIC
                            (wrap32 res') (wrap32 origin);
              EvFinalizeContext p; EvFree p]. cbn.
      rewrite <- !app_assoc. split; [reflexivity|]. repeat constructor. }
  match goal with |- context [adi_otp_check_version E p ?w3] =>
    destruct (check_version_calls p w3) as (e & He & Hcall);
    destruct (adi_otp_check_version E p w3) as [r w4]
  end.
  cbn [snd trace log_event] in He.
  cbv zeta. destruct (wrap32 r =? 0); cbn [negb].
  - exists [EvCalloc p; EvInitializeContext p (wrap32 res);
            EvOpenSession p PTA_ADI_OTP_UUID TEEC_LOGIN_PUBLIC
                          (wrap32 res') (wrap32 origin); e].
    cbn [mret fst snd]. rewrite He, <- !app_assoc. split; [reflexivity|].
    destruct (Z.eqb_spec p NULL); [contradiction|]. cbn. rewrite Hcall. reflexivity.
  - exists [EvCalloc p; EvInitializeContext p (wrap32 res);
            EvOpenSession p PTA_ADI_OTP_UUID TEEC_LOGIN_PUBLIC
                          (wrap32 res') (wrap32 origin); e;
            EvFinalizeContext p; EvFree p].
    cbn. rewrite He, <- !app_assoc. split; [reflexivity|].
    rewrite Hcall. repeat constructor.
Qed.

Lemma check_version_status_range otp w :
  - 2 ^ 31 <= (adi_otp_check_version E otp w).1 < 2 ^ 31.
Proof.
  rewrite check_version_status. cbv zeta.
  destruct (_ =? 0); [|apply to_int_range].
  destruct (_ && _); unfold EINVAL; lia.
Qed.

(** Once the handle is allocated and the context and the session are
    open, [adi_otp_open] returns the handle when the version check returns
    0 and [NULL] otherwise. *)
Lemma adi_otp_open_gate w :
  let a1 := calloc E w in
  let a2 := TEEC_InitializeContext E a1.1 a1.2 in
  let a3 := TEEC_OpenSession E a1.1 PTA_ADI_OTP_UUID TEEC_LOGIN_PUBLIC a2.2 in
  a1.1 <> NULL -> a2.1 = TEEC_SUCCESS -> a3.1.1 = TEEC_SUCCESS ->
  (adi_otp_open E w).1 =
  if (adi_otp_check_version E a1.1 a3.2).1 =? 0 then a1.1 else NULL.
Proof.
  cbv zeta. unfold adi_otp_open, bind.
  destruct (calloc E w) as [p w1]. cbn [fst snd]. intros Hp.
  destruct (Z.eqb_spec p NULL) as [|_]; [contradiction|].
  destruct (TEEC_InitializeContext E p w1) as [res w2]. cbn [fst snd]. intros ->.
  cbn [Z.eqb TEEC_SUCCESS negb].
  destruct (TEEC_OpenSession E p PTA_ADI_OTP_UUID TEEC_LOGIN_PUBLIC w2)
    as [[res' origin] w3]. cbn [fst snd]. intros ->.
  cbn [Z.eqb TEEC_SUCCESS negb].
  pose proof (check_version_status_range p w3) as Hr.
  destruct (adi_otp_check_version E p w3) as [r w4]. cbn [fst] in *.
  cbv zeta. unfold wrap32.
  destruct (Z.eqb_spec r 0) as [->|Hr0]; [reflexivity|].
  destruct (Z.eqb_spec (r mod 2 ^ 32) 0) as [Hm|Hm]; [|reflexivity].
  exfalso. apply Hr0.
  apply Z.mod_divide in Hm; [|discriminate].
  destruct Hm as [k Hk]. change (2 ^ 31) with 2147483648 in Hr.
  change (2 ^ 32) with 4294967296 in Hk. lia.
Qed.

End Open.

(** C2 on a concrete run.  The client is built for version 1.0; the peer is
    reached (allocation, context and session succeed) and reports version
    2.0.  [adi_otp_open] returns [NULL] after finalizing the context and
    freeing the handle, but the session it opened is never closed:
    [TEEC_CloseSession] is not called. *)
Theorem open_version_mismatch_skips_CloseSession :
  (adi_otp_open (hdr := sample_h) scripted w_v2).1 = NULL /\
  call_of <$> trace (adi_otp_open (hdr := sample_h) scripted w_v2).2 =
    [Calloc; InitializeContext; OpenSession; InvokeCommand; FinalizeContext; Free] /\
  (CloseSession ∉ call_of <$> trace (adi_otp_open (hdr := sample_h) scripted w_v2).2) /\
  (exists l, trace (adi_otp_open (hdr := sample_h) scripted w_v2).2 =
             l ++ [EvFinalizeContext 4096; EvFree 4096]) /\
  (adi_otp_check_version (hdr := sample_h) scripted 4096 w_v2).1 = - EINVAL.
Proof.
  split; [reflexivity|]. split; [reflexivity|].
  split; [|split; [|reflexivity]].
  - apply (bool_decide_unpack
             (CloseSession ∉ (call_of <$>
                trace (adi_otp_open (hdr := sample_h) scripted w_v2).2))).
    vm_compute. exact I.
  - eexists (take 4 (trace (adi_otp_open (hdr := sample_h) scripted w_v2).2)).
    vm_compute. reflexivity.
Qed.

(** * Further properties of the code *)

(** ** More on machine integers *)

Lemma to_int_cases z :
  0 <= z < 2 ^ 32 -> to_int z = if z <? 2 ^ 31 then z else z - 2 ^ 32.
Proof.
  intros Hz. unfold to_int.
  change (2 ^ 32) with 4294967296 in *. change (2 ^ 31) with 2147483648 in *.
  destruct (Z.ltb_spec z 2147483648) as [Hlt|Hge].
  - rewrite Z.mod_small by lia. lia.
  - replace (z + 2147483648) with (z - 2147483648 + 1 * 4294967296) by lia.
    rewrite Z.mod_add by discriminate. rewrite Z.mod_small by lia. lia.
Qed.

Lemma to_int_idem z : to_int (to_int z) = to_int z.
Proof.
  pose proof (to_int_range z) as Hr.
  generalize dependent (to_int z). intros x Hx. unfold to_int.
  change (2 ^ 32) with 4294967296 in *. change (2 ^ 31) with 2147483648 in *.
  rewrite Z.mod_small by lia. lia.
Qed.

Lemma diag_to_int what st : diag what (to_int st) = diag what st.
Proof. unfold diag, fmt_d. rewrite to_int_idem. reflexivity. Qed.

(** ** The version check, once more *)

Section GateFacts.
Context {hdr : libadiotp_h} (E : Env).
Implicit Types (w : World E).

Lemma check_version_one_call otp w :
  one_call E w (adi_otp_check_version E otp w).2 otp ADI_OTP_CMD_VERSION req_version.
Proof.
  unfold one_call. rewrite adi_otp_check_version_run. cbv zeta.
  destruct (_ =? 0); [destruct (_ =? ADI_OTP_MAJOR); [destruct (_ <? ADI_OTP_MINOR)|]|];
    cbn [snd complain trace]; apply trace_invoked.
Qed.

(** The version check prints nothing when it returns 0 and one line when
    it does not. *)
Lemma check_version_stderr otp w :
  exists s, stderr (adi_otp_check_version E otp w).2 =
            stderr w ++ (if (adi_otp_check_version E otp w).1 =? 0 then [] else [s]).
Proof.
  rewrite adi_otp_check_version_run. cbv zeta.
  destruct (Z.eqb_spec (status E otp ADI_OTP_CMD_VERSION req_version w) 0) as [Hst|Hst].
  - destruct (_ =? ADI_OTP_MAJOR); [destruct (_ <? ADI_OTP_MINOR)|];
      cbn [fst snd complain stderr]; rewrite stderr_invoked.
    + eexists. reflexivity.
    + exists EmptyString. cbn. rewrite app_nil_r. reflexivity.
    + eexists. reflexivity.
  - cbn [fst snd complain stderr]. rewrite stderr_invoked.
    destruct (Z.eqb_spec (to_int (status E otp ADI_OTP_CMD_VERSION req_version w)) 0)
      as [H0|H0]; [apply to_int_status_0 in H0; contradiction|].
    eexists. reflexivity.
Qed.

End GateFacts.

(** ** Every path of [adi_otp_open] *)

Section OpenPaths.
Context {hdr : libadiotp_h} (E : Env).
Implicit Types (w : World E).

(** X1.  Whatever the environment answers, [adi_otp_open] makes one of
    five sequences of calls, all of them about the address [calloc]
    returned: a session is opened only on [PTA_ADI_OTP_UUID] with a public
    login, the only command sent is VERSION, [TEEC_CloseSession] is never
    called, and the four sequences that end in [NULL] free the handle last
    (when there is one). *)
Theorem adi_otp_open_paths w :
  let p := (calloc E w).1 in
  let r := adi_otp_open E w in
  exists l,
    trace r.2 = trace w ++ l /\
    Forall (fun e => event_handle e = p /\ open_event_ok e) l /\
    if r.1 =? NULL then
      call_of <$> l ∈
        [ [Calloc];
          [Calloc; InitializeContext; Free];
          [Calloc; InitializeContext; OpenSession; FinalizeContext; Free];
          [Calloc; InitializeContext; OpenSession; InvokeCommand;
           FinalizeContext; Free] ]
    else call_of <$> l = [Calloc; InitializeContext; OpenSession; InvokeCommand].
Proof.
  cbv zeta. unfold adi_otp_open, bind, calloc.
  destruct (env_calloc E (tee_state w)) as [p t1]. cbn [fst].
  destruct (Z.eqb_spec p NULL) as [Hp|Hp].
  { exists [EvCalloc p]. cbn. split; [reflexivity|].
    split; [repeat constructor | repeat constructor]. }
  unfold TEEC_InitializeContext. cbn [tee_state log_event].
  destruct (env_InitializeContext E p t1) as [res t2].
  destruct (TEEC_SUCCESS =? wrap32 res); cbn [negb].
  2:{ exists [EvCalloc p; EvInitializeContext p (wrap32 res); EvFree p]. cbn.
      rewrite <- !app_assoc. split; [reflexivity|].
      split; repeat constructor. }
  unfold TEEC_OpenSession. cbn [tee_state log_event].
  destruct (env_OpenSession E p PTA_ADI_OTP_UUID TEEC_LOGIN_PUBLIC t2)
    as [[res' origin] t3].
  destruct (TEEC_SUCCESS =? wrap32 res'); cbn [negb].
  2:{ exists [EvCalloc p; EvInitializeContext p (wrap32 res);
              EvOpenSession p PTA_ADI_OTP_UUID TEEC_LOGIN_PUBLIC
                            (wrap32 res') (wrap32 origin);
              EvFinalizeContext p; EvFree p]. cbn.
      rewrite <- !app_assoc. split; [reflexivity|].
      split; repeat constructor. }
  match goal with |- context [adi_otp_check_version E p ?w3] =>
    pose proof (check_version_one_call E p w3) as He;
    set (e := EvInvokeCommand p (cmd_id ADI_OTP_CMD_VERSION) req_version
                (status E p ADI_OTP_CMD_VERSION req_version w3)
                (reply E p ADI_OTP_CMD_VERSION req_version w3)
                (origin_tag E p ADI_OTP_CMD_VERSION req_version w3)) in He;
    destruct (adi_otp_check_version E p w3) as [r w4]
  end.
  unfold one_call in He. cbn [snd trace log_event] in He.
  assert (Hok : event_handle e = p /\ open_event_ok e)
    by (split; [reflexivity | split; reflexivity]).
  cbv zeta. destruct (wrap32 r =? 0); cbn [negb].
  - exists [EvCalloc p; EvInitializeContext p (wrap32 res);
            EvOpenSession p PTA_ADI_OTP_UUID TEEC_LOGIN_PUBLIC
                          (wrap32 res') (wrap32 origin); e].
    cbn [mret fst snd]. rewrite He, <- !app_assoc. split; [reflexivity|].
    split; [repeat constructor; apply Hok|].
    destruct (Z.eqb_spec p NULL); [contradiction|]. reflexivity.
  - exists [EvCalloc p; EvInitializeContext p (wrap32 res);
            EvOpenSession p PTA_ADI_OTP_UUID TEEC_LOGIN_PUBLIC
                          (wrap32 res') (wrap32 origin); e;
            EvFinalizeContext p; EvFree p].
    cbn. rewrite He, <- !app_assoc. split; [reflexivity|].
    split; [repeat constructor; apply Hok | repeat constructor].
Qed.

Lemma wrap32_int_0 r : - 2 ^ 31 <= r < 2 ^ 31 -> (wrap32 r =? 0) = (r =? 0).
Proof.
  intros Hr. unfold wrap32.
  destruct (Z.eqb_spec r 0) as [->|Hr0]; [reflexivity|].
  apply Z.eqb_neq. intros Hm.
  apply Z.mod_divide in Hm; [|discriminate].
  destruct Hm as [k Hk]. change (2 ^ 31) with 2147483648 in Hr.
  change (2 ^ 32) with 4294967296 in Hk. lia.
Qed.

(** X2.  [adi_otp_open] returns the address [calloc] returned when the
    allocation, [TEEC_InitializeContext], [TEEC_OpenSession] and the
    version check all succeed, and [NULL] in every other case; so the
    result is not [NULL] exactly when the four steps succeed.  Each step is
    taken in the world the step before it left. *)
Theorem adi_otp_open_result w :
  let a1 := calloc E w in
  let a2 := TEEC_InitializeContext E a1.1 a1.2 in
  let a3 := TEEC_OpenSession E a1.1 PTA_ADI_OTP_UUID TEEC_LOGIN_PUBLIC a2.2 in
  let a4 := adi_otp_check_version E a1.1 a3.2 in
  (adi_otp_open E w).1 =
    (if negb (a1.1 =? NULL) && (a2.1 =? TEEC_SUCCESS) && (a3.1.1 =? TEEC_SUCCESS)
        && (a4.1 =? 0)
     then a1.1 else NULL) /\
  ((adi_otp_open E w).1 <> NULL <->
   a1.1 <> NULL /\ a2.1 = TEEC_SUCCESS /\ a3.1.1 = TEEC_SUCCESS /\ a4.1 = 0).
Proof.
  cbv zeta.
  assert (Heq : (adi_otp_open E w).1 =
    (if negb ((calloc E w).1 =? NULL)
        && ((TEEC_InitializeContext E (calloc E w).1 (calloc E w).2).1 =? TEEC_SUCCESS)
        && ((TEEC_OpenSession E (calloc E w).1 PTA_ADI_OTP_UUID TEEC_LOGIN_PUBLIC
               (TEEC_InitializeContext E (calloc E w).1 (calloc E w).2).2).1.1
            =? TEEC_SUCCESS)
        && ((adi_otp_check_version E (calloc E w).1
               (TEEC_OpenSession E (calloc E w).1 PTA_ADI_OTP_UUID TEEC_LOGIN_PUBLIC
                  (TEEC_InitializeContext E (calloc E w).1 (calloc E w).2).2).2).1 =? 0)
     then (calloc E w).1 else NULL)).
  { unfold adi_otp_open, bind.
    destruct (calloc E w) as [p w1]. cbn [fst snd].
    destruct (p =? NULL); [reflexivity|]. cbn [negb andb].
    destruct (TEEC_InitializeContext E p w1) as [res w2]. cbn [fst snd].
    rewrite (Z.eqb_sym TEEC_SUCCESS).
    destruct (res =? TEEC_SUCCESS); cbn [negb andb]; [|reflexivity].
    destruct (TEEC_OpenSession E p PTA_ADI_OTP_UUID TEEC_LOGIN_PUBLIC w2)
      as [[res' origin] w3]. cbn [fst snd].
    rewrite (Z.eqb_sym TEEC_SUCCESS).
    destruct (res' =? TEEC_SUCCESS); cbn [negb andb]; [|reflexivity].
    pose proof (check_version_status_range E p w3) as Hr.
    destruct (adi_otp_check_version E p w3) as [r w4]. cbn [fst] in *.
    cbv zeta. rewrite (wrap32_int_0 r Hr).
    destruct (r =? 0); reflexivity. }
  split; [exact Heq|].
  rewrite Heq.
  destruct (Z.eqb_spec (calloc E w).1 NULL) as [Hp|Hp]; cbn [negb andb].
  { split; [congruence | intros (H & _); contradiction]. }
  match goal with |- context [?x =? TEEC_SUCCESS] =>
    destruct (Z.eqb_spec x TEEC_SUCCESS) as [H2|H2] end; cbn [andb].
  2:{ split; [congruence | intros (_ & H & _); contradiction]. }
  match goal with |- context [?x =? TEEC_SUCCESS] =>
    destruct (Z.eqb_spec x TEEC_SUCCESS) as [H3|H3] end; cbn [andb].
  2:{ split; [congruence | intros (_ & _ & H & _); contradiction]. }
  match goal with |- context [?x =? 0] =>
    destruct (Z.eqb_spec x 0) as [H4|H4] end.
  - split; [intros _; repeat split; assumption | intros _; exact Hp].
  - split; [congruence | intros (_ & _ & _ & H); contradiction].
Qed.

(** X3.  [adi_otp_open] writes to [stderr] only when it reaches the
    version check and the check fails, and then one line.  A failure of
    [calloc], [TEEC_InitializeContext] or [TEEC_OpenSession] prints
    nothing, and so does a successful open. *)
Theorem adi_otp_open_stderr w :
  let a1 := calloc E w in
  let a2 := TEEC_InitializeContext E a1.1 a1.2 in
  let a3 := TEEC_OpenSession E a1.1 PTA_ADI_OTP_UUID TEEC_LOGIN_PUBLIC a2.2 in
  let a4 := adi_otp_check_version E a1.1 a3.2 in
  exists s,
    stderr (adi_otp_open E w).2 =
    stderr w ++
      (if negb (a1.1 =? NULL) && (a2.1 =? TEEC_SUCCESS) && (a3.1.1 =? TEEC_SUCCESS)
          && negb (a4.1 =? 0)
       then [s] else []).
Proof.
  cbv zeta. unfold adi_otp_open, bind, calloc.
  destruct (env_calloc E (tee_state w)) as [p t1]. cbn [fst snd].
  destruct (p =? NULL); cbn [negb andb].
  { exists EmptyString. cbn. rewrite app_nil_r. reflexivity. }
  unfold TEEC_InitializeContext. cbn [tee_state log_event].
  destruct (env_InitializeContext E p t1) as [res t2]. cbn [fst snd].
  rewrite (Z.eqb_sym TEEC_SUCCESS).
  destruct (wrap32 res =? TEEC_SUCCESS); cbn [negb andb].
  2:{ exists EmptyString. cbn. rewrite app_nil_r. reflexivity. }
  unfold TEEC_OpenSession. cbn [tee_state log_event].
  destruct (env_OpenSession E p PTA_ADI_OTP_UUID TEEC_LOGIN_PUBLIC t2)
    as [[res' origin] t3]. cbn [fst snd].
  rewrite (Z.eqb_sym TEEC_SUCCESS).
  destruct (wrap32 res' =? TEEC_SUCCESS); cbn [negb andb].
  2:{ exists EmptyString. cbn. rewrite app_nil_r. reflexivity. }
  match goal with |- context [adi_otp_check_version E p ?w3] =>
    destruct (check_version_stderr E p w3) as [s Hs];
    pose proof (check_version_status_range E p w3) as Hr;
    destruct (adi_otp_check_version E p w3) as [r w4]
  end.
  cbn [fst snd stderr] in *. exists s.
  cbv zeta. rewrite (wrap32_int_0 r Hr).
  destruct (r =? 0); cbn [negb]; cbn; exact Hs.
Qed.

End OpenPaths.

(** ** Open, then close *)

Section OpenClose.
Context {hdr : libadiotp_h} (E : Env).
Implicit Types (w : World E).

Lemma adi_otp_close_trace otp w :
  otp <> NULL ->
  trace (adi_otp_close E otp w).2 =
  trace w ++ [EvCloseSession otp; EvFinalizeContext otp].
Proof.
  intros Hotp. unfold adi_otp_close.
  destruct (Z.eqb_spec otp NULL) as [|_]; [contradiction|].
  unfold bind, TEEC_CloseSession, TEEC_FinalizeContext, log_event. cbn.
  rewrite <- app_assoc. reflexivity.
Qed.

(** X4.  A successful [adi_otp_open] followed by [adi_otp_close] on the
    handle it returned makes six calls: [calloc], [TEEC_InitializeContext],
    [TEEC_OpenSession], [TEEC_InvokeCommand] (VERSION), [TEEC_CloseSession]
    and [TEEC_FinalizeContext].  [free] is not among them: the handle
    stays allocated after the close. *)
Theorem open_close_never_frees w :
  (adi_otp_open E w).1 <> NULL ->
  exists l,
    trace (adi_otp_close E (adi_otp_open E w).1 (adi_otp_open E w).2).2
      = trace w ++ l /\
    call_of <$> l =
      [Calloc; InitializeContext; OpenSession; InvokeCommand;
       CloseSession; FinalizeContext] /\
    Free ∉ call_of <$> l.
Proof.
  intros Hopen.
  destruct (adi_otp_open_calls E w) as (l & Htr & Hl). cbv zeta in *.
  destruct (Z.eqb_spec (adi_otp_open E w).1 NULL) as [|_]; [contradiction|].
  exists (l ++ [EvCloseSession (adi_otp_open E w).1;
                EvFinalizeContext (adi_otp_open E w).1]).
  rewrite adi_otp_close_trace by exact Hopen.
  rewrite Htr, <- app_assoc. split; [reflexivity|].
  rewrite fmap_app, Hl. cbn. split; [reflexivity|].
  apply (bool_decide_unpack
           (Free ∉ [Calloc; InitializeContext; OpenSession; InvokeCommand;
                    CloseSession; FinalizeContext])).
  vm_compute. exact I.
Qed.

(** X10.  [adi_otp_close] keeps no record of what it closed: called twice
    on the same live handle, it calls [TEEC_CloseSession] and
    [TEEC_FinalizeContext] twice, and prints nothing. *)
Theorem close_twice_repeats otp w :
  otp <> NULL ->
  trace (adi_otp_close E otp (adi_otp_close E otp w).2).2 =
    trace w ++ [EvCloseSession otp; EvFinalizeContext otp;
                EvCloseSession otp; EvFinalizeContext otp] /\
  stderr (adi_otp_close E otp (adi_otp_close E otp w).2).2 = stderr w.
Proof.
  intros Hotp. split.
  - rewrite !adi_otp_close_trace by exact Hotp. rewrite <- app_assoc. reflexivity.
  - unfold adi_otp_close.
    destruct (Z.eqb_spec otp NULL) as [|_]; [contradiction|]. reflexivity.
Qed.

End OpenClose.

Lemma open_close_never_frees_witness :
  (adi_otp_open (hdr := sample_h) scripted w_v1).1 <> NULL /\
  exists l,
    trace (adi_otp_close scripted (adi_otp_open (hdr := sample_h) scripted w_v1).1
                         (adi_otp_open (hdr := sample_h) scripted w_v1).2).2
      = trace w_v1 ++ l /\
    call_of <$> l =
      [Calloc; InitializeContext; OpenSession; InvokeCommand;
       CloseSession; FinalizeContext] /\
    Free ∉ call_of <$> l.
Proof.
  assert (H : (adi_otp_open (hdr := sample_h) scripted w_v1).1 <> NULL)
    by (vm_compute; discriminate).
  split; [exact H|].
  exact (open_close_never_frees (hdr := sample_h) scripted w_v1 H).
Defined.

Lemma close_twice_repeats_witness :
  4096 <> NULL /\
  trace (adi_otp_close scripted 4096 (adi_otp_close scripted 4096 w_v1).2).2 =
    [EvCloseSession 4096; EvFinalizeContext 4096;
     EvCloseSession 4096; EvFinalizeContext 4096].
Proof.
  assert (H : 4096 <> NULL) by discriminate.
  split; [exact H|].
  exact (proj1 (close_twice_repeats scripted 4096 w_v1 H)).
Defined.

(** ** Output variables and diagnostics of the operations *)

Section Operations.
Context {hdr : libadiotp_h} (E : Env).
Implicit Types (w : World E).

(** A failed status stays nonzero as an [int]. *)
Ltac nonzero_int :=
  match goal with
  | |- context [to_int (status ?E ?otp ?c ?op ?w) =? 0] =>
      let H := fresh "H0" in
      destruct (Z.eqb_spec (to_int (status E otp c op w)) 0) as [H|H];
      [apply to_int_status_0 in H; contradiction|]
  end.

(** X5.  The output variables of [adi_otp_get_version], [adi_otp_is_valid],
    [adi_otp_is_written] and [adi_otp_is_locked] are never read: two calls
    that differ only in what the variables hold beforehand send the same
    request, leave the same world and return the same status, and on
    success they store the same values. *)
Theorem outputs_are_write_only
  otp id major minor major' minor' valid valid' written written' locked locked' w :
  (let r := adi_otp_get_version E otp major minor w in
   let r' := adi_otp_get_version E otp major' minor' w in
   r.2 = r'.2 /\ r.1.1.1 = r'.1.1.1 /\
   if r.1.1.1 =? 0 then r.1 = r'.1 else r.1 = (r.1.1.1, major, minor)) /\
  (let r := adi_otp_is_valid E otp id valid w in
   let r' := adi_otp_is_valid E otp id valid' w in
   r.2 = r'.2 /\ r.1.1 = r'.1.1 /\
   if r.1.1 =? 0 then r.1 = r'.1 else r.1 = (r.1.1, valid)) /\
  (let r := adi_otp_is_written E otp id written w in
   let r' := adi_otp_is_written E otp id written' w in
   r.2 = r'.2 /\ r.1.1 = r'.1.1 /\
   if r.1.1 =? 0 then r.1 = r'.1 else r.1 = (r.1.1, written)) /\
  (let r := adi_otp_is_locked E otp locked w in
   let r' := adi_otp_is_locked E otp locked' w in
   r.2 = r'.2 /\ r.1.1 = r'.1.1 /\
   if r.1.1 =? 0 then r.1 = r'.1 else r.1 = (r.1.1, locked)).
Proof.
  by_run.
  repeat match goal with |- _ /\ _ => split end.
  all: on_status; try reflexivity.
  all: nonzero_int; reflexivity.
Qed.

(** X6.  What an operation writes to [stderr] is fixed by the status it
    returns: nothing when it returns 0, and otherwise one line made of the
    operation's text, the returned status in decimal and a newline
    ([adi_otp_get_version] uses the text of [adi_otp_read]).  The version
    check prints nothing when it returns 0 and one line otherwise, and
    [adi_otp_close] never prints. *)
Theorem stderr_follows_status otp id buf len major minor valid written locked w :
  (let r := adi_otp_get_version E otp major minor w in
   stderr r.2 = stderr w ++
     if r.1.1.1 =? 0 then [] else [diag "OTP read failed, ret = " r.1.1.1]) /\
  (let r := adi_otp_read E otp id buf len w in
   stderr r.2 = stderr w ++
     if r.1.1 =? 0 then [] else [diag "OTP read failed, ret = " r.1.1]) /\
  (let r := adi_otp_write E otp id buf len w in
   stderr r.2 = stderr w ++
     if r.1 =? 0 then [] else [diag "OTP write failed, ret = " r.1]) /\
  (let r := adi_otp_invalidate E otp id w in
   stderr r.2 = stderr w ++
     if r.1 =? 0 then [] else [diag "OTP invalidate failed, ret = " r.1]) /\
  (let r := adi_otp_is_valid E otp id valid w in
   stderr r.2 = stderr w ++
     if r.1.1 =? 0 then [] else [diag "OTP is_valid failed, ret = " r.1.1]) /\
  (let r := adi_otp_is_written E otp id written w in
   stderr r.2 = stderr w ++
     if r.1.1 =? 0 then [] else [diag "OTP is_written failed, ret = " r.1.1]) /\
  (let r := adi_otp_is_locked E otp locked w in
   stderr r.2 = stderr w ++
     if r.1.1 =? 0 then [] else [diag "OTP is_written failed, ret = " r.1.1]) /\
  (let r := adi_otp_lock E otp w in
   stderr r.2 = stderr w ++
     if r.1 =? 0 then [] else [diag "OTP lock failed, ret = " r.1]) /\
  (let r := adi_otp_check_version E otp w in
   exists s, stderr r.2 = stderr w ++ if r.1 =? 0 then [] else [s]) /\
  stderr (adi_otp_close E otp w).2 = stderr w.
Proof.
  by_run.
  repeat match goal with |- _ /\ _ => split end.
  9: apply check_version_stderr.
  9: { unfold adi_otp_close. destruct (otp =? NULL); reflexivity. }
  all: on_status.
  all: try (cbn [Z.eqb]; rewrite app_nil_r; apply stderr_invoked).
  all: nonzero_int.
  all: unfold complain; cbn [stderr]; rewrite stderr_invoked, diag_to_int;
       reflexivity.
Qed.

(** X7.  The version check returns [-EINVAL] in two cases only: the
    VERSION command succeeded and the version is rejected (other major, or
    older minor), or the transport itself failed with the status
    [0xFFFFFFEA], whose [int] reading is [-EINVAL].  The value alone does
    not tell the two apart. *)
Theorem check_version_EINVAL_iff otp w :
  let st := status E otp ADI_OTP_CMD_VERSION req_version w in
  let op' := reply E otp ADI_OTP_CMD_VERSION req_version w in
  let major := to_int (a (value (param op' 0))) in
  let minor := to_int (b (value (param op' 0))) in
  (adi_otp_check_version E otp w).1 = - EINVAL <->
  (st = TEEC_SUCCESS /\ (major <> ADI_OTP_MAJOR \/ minor < ADI_OTP_MINOR)) \/
  st = 2 ^ 32 - EINVAL.
Proof.
  cbv zeta. rewrite check_version_status. cbv zeta.
  pose proof (status_range E otp ADI_OTP_CMD_VERSION req_version w) as Hr.
  unfold TEEC_SUCCESS, EINVAL. change (2 ^ 32) with 4294967296 in *.
  destruct (Z.eqb_spec (status E otp ADI_OTP_CMD_VERSION req_version w) 0) as [Hst|Hst].
  - destruct (Z.eqb_spec
                (to_int (a (value (param (reply E otp ADI_OTP_CMD_VERSION req_version w) 0))))
                ADI_OTP_MAJOR) as [Hmaj|Hmaj];
    destruct (Z.ltb_spec
                (to_int (b (value (param (reply E otp ADI_OTP_CMD_VERSION req_version w) 0))))
                ADI_OTP_MINOR) as [Hmin|Hmin];
      cbn [andb negb]; split; intros; try lia; try tauto.
  - rewrite (to_int_cases _ ltac:(change (2 ^ 32) with 4294967296; exact Hr)).
    change (2 ^ 31) with 2147483648. change (2 ^ 32) with 4294967296.
    destruct (Z.ltb_spec (status E otp ADI_OTP_CMD_VERSION req_version w) 2147483648);
      split; intros; try lia.
Qed.

(** X8.  On success [adi_otp_get_version] stores the two 32-bit values of
    the answer as [int]: a value below [2^31] as it is, a value of [2^31]
    or more as that value minus [2^32], a negative number. *)
Theorem get_version_reads_signed otp major minor w :
  let st := status E otp ADI_OTP_CMD_VERSION req_version w in
  let op' := reply E otp ADI_OTP_CMD_VERSION req_version w in
  let ra := a (value (param op' 0)) in
  let rb := b (value (param op' 0)) in
  let r := adi_otp_get_version E otp major minor w in
  0 <= ra < 2 ^ 32 /\ 0 <= rb < 2 ^ 32 /\
  if st =? 0 then
    r.1 = (0, if ra <? 2 ^ 31 then ra else ra - 2 ^ 32,
              if rb <? 2 ^ 31 then rb else rb - 2 ^ 32)
  else r.1 = (to_int st, major, minor).
Proof.
  cbv zeta.
  destruct (reply_value_range E otp ADI_OTP_CMD_VERSION req_version w 0) as [Ha Hb].
  split; [exact Ha|]. split; [exact Hb|].
  by_run. on_status; [|reflexivity].
  rewrite (to_int_cases _ Ha), (to_int_cases _ Hb). reflexivity.
Qed.

(** X9.  The gate compares the versions as [int]: when the header's
    minor is not negative, a peer with the right major whose minor is
    [2^31] or more is rejected as too old; likewise a major of [2^31] or
    more never equals a header major that is not negative. *)
Theorem check_version_rejects_high_bit otp w :
  status E otp ADI_OTP_CMD_VERSION req_version w = TEEC_SUCCESS ->
  (2 ^ 31 <= a (value (param (reply E otp ADI_OTP_CMD_VERSION req_version w) 0))
   /\ 0 <= ADI_OTP_MAJOR) \/
  (2 ^ 31 <= b (value (param (reply E otp ADI_OTP_CMD_VERSION req_version w) 0))
   /\ 0 <= ADI_OTP_MINOR) ->
  (adi_otp_check_version E otp w).1 = - EINVAL.
Proof.
  intros Hst Hbig. rewrite check_version_status. cbv zeta.
  rewrite Hst. cbn [Z.eqb TEEC_SUCCESS].
  destruct (reply_value_range E otp ADI_OTP_CMD_VERSION req_version w 0) as [Ha Hb].
  rewrite (to_int_cases _ Ha), (to_int_cases _ Hb).
  change (2 ^ 31) with 2147483648 in *. change (2 ^ 32) with 4294967296 in *.
  destruct Hbig as [[Hbig Hpos]|[Hbig Hpos]].
  - destruct (Z.ltb_spec
                (a (value (param (reply E otp ADI_OTP_CMD_VERSION req_version w) 0)))
                2147483648) as [|_]; [lia|].
    match goal with |- context [?x =? ADI_OTP_MAJOR] =>
      destruct (Z.eqb_spec x ADI_OTP_MAJOR) as [Heq|_]; [lia | reflexivity] end.
  - destruct (Z.ltb_spec
                (b (value (param (reply E otp ADI_OTP_CMD_VERSION req_version w) 0)))
                2147483648) as [|_]; [lia|].
    match goal with |- context [?x <? ADI_OTP_MINOR] =>
      destruct (Z.ltb_spec x ADI_OTP_MINOR) as [_|Hge]; [|lia] end.
    rewrite andb_false_r. reflexivity.
Qed.

End Operations.

(** The sample peer reports version 1.[2^31] to a client built for 1.0. *)
Lemma check_version_rejects_high_bit_witness :
  status (hdr := sample_h) scripted 4096 ADI_OTP_CMD_VERSION req_version w_minor_2_31
    = TEEC_SUCCESS /\
  2 ^ 31 <= b (value (param (reply (hdr := sample_h) scripted 4096 ADI_OTP_CMD_VERSION
                                   req_version w_minor_2_31) 0)) /\
  0 <= ADI_OTP_MINOR (libadiotp_h := sample_h) /\
  (adi_otp_check_version (hdr := sample_h) scripted 4096 w_minor_2_31).1 = - EINVAL.
Proof.
  assert (H1 : status (hdr := sample_h) scripted 4096 ADI_OTP_CMD_VERSION req_version
                      w_minor_2_31 = TEEC_SUCCESS) by reflexivity.
  assert (H2 : 2 ^ 31 <= b (value (param (reply (hdr := sample_h) scripted 4096
                 ADI_OTP_CMD_VERSION req_version w_minor_2_31) 0)))
    by (vm_compute; discriminate).
  assert (H3 : 0 <= ADI_OTP_MINOR (libadiotp_h := sample_h))
    by (vm_compute; discriminate).
  split; [exact H1|]. split; [exact H2|]. split; [exact H3|].
  exact (check_version_rejects_high_bit (hdr := sample_h) scripted 4096 w_minor_2_31
           H1 (or_intror (conj H2 H3))).
Defined.
